(** * AI TRPG server ([server.py]): contract layer

    A shallow embedding of the request/response contract layer of the
    FastAPI game server: the dice resolver ([roll_dice]), the completion
    client wrapper ([call_gemini]), the response normalizer
    ([parse_json_response]) and the two game-event routes ([game_action],
    [roll_result_narration]).

    Python values are modelled by the inductive type [pyval]; a function
    that may raise returns a [result], whose [Raise] case carries the
    exception object, and [try]/[except] is [try_except].  What the server
    calls and the repository does not define ([json.loads], [json.dumps],
    [str], [str.join] and the generative client) is the interface
    [Library]: every theorem holds for any implementation of it, and the
    module [Ref] gives executable ones to run the handlers on concrete
    requests. *)

From Stdlib Require Import ZArith List String Ascii Bool Lia SpecFloat DecimalString.
Import ListNotations.

Set Warnings "-register-all".

Local Open Scope string_scope.
Local Open Scope Z_scope.

(** ** Python values *)

(** The JSON-shaped fragment of Python's object universe.  A [dict] keeps
    its insertion order, so it is an association list; keys are [str].  A
    [float] is a binary64 value, sign, mantissa and exponent. *)
Inductive pyval : Type :=
| PNone
| PBool (b : bool)
| PInt (n : Z)
| PFloat (f : spec_float)
| PStr (s : string)
| PList (items : list pyval)
| PDict (entries : list (string * pyval)).

Definition pydict : Type := list (string * pyval).

(** [Dict[str, str]], the declared type of a history entry. *)
Definition strdict : Type := list (string * string).

Definition isinstance_list (v : pyval) : bool :=
  match v with PList _ => true | _ => false end.

Definition isinstance_dict (v : pyval) : bool :=
  match v with PDict _ => true | _ => false end.

(** The line feed and the double quote, which a literal cannot hold. *)
Definition nl : string := String (ascii_of_nat 10) EmptyString.
Definition dq : string := String (ascii_of_nat 34) EmptyString.

(** ** Dictionaries *)

Module Dict.
Section Ops.
Context {V : Type}.

(** [d.get(k)], [None] when the key is absent. *)
Fixpoint get (k : string) (d : list (string * V)) : option V :=
  match d with
  | [] => None
  | (k', v) :: rest => if String.eqb k k' then Some v else get k rest
  end.

(** [k in d]. *)
Definition mem (k : string) (d : list (string * V)) : bool :=
  match get k d with Some _ => true | None => false end.

(** [d.get(k, default)]. *)
Definition get_default (k : string) (default : V) (d : list (string * V)) : V :=
  match get k d with Some v => v | None => default end.

(** [d[k] = v]: an existing key keeps its position, a new one goes last. *)
Fixpoint set (k : string) (v : V) (d : list (string * V)) : list (string * V) :=
  match d with
  | [] => [(k, v)]
  | (k', v') :: rest =>
      if String.eqb k k' then (k', v) :: rest else (k', v') :: set k v rest
  end.
End Ops.
End Dict.

(** ** Exceptions and the error monad *)

(** The exception classes the handlers tell apart.  [HTTPException] is
    FastAPI's; [JSONDecodeError] is the parser's; [PyException] is any other
    subclass of [Exception], named by its class; [PyBaseException] is an
    exception outside [Exception] ([KeyboardInterrupt], [SystemExit]). *)
Inductive exn : Type :=
| HTTPException (status_code : Z) (detail : pyval)
| JSONDecodeError (msg : string)
| PyException (cls : string) (msg : string)
| PyBaseException (cls : string) (msg : string).

Definition isinstance_Exception (e : exn) : bool :=
  match e with PyBaseException _ _ => false | _ => true end.

Definition isinstance_HTTPException (e : exn) : bool :=
  match e with HTTPException _ _ => true | _ => false end.

Definition isinstance_JSONDecodeError (e : exn) : bool :=
  match e with JSONDecodeError _ => true | _ => false end.

Inductive result (A : Type) : Type :=
| Ok (a : A)
| Raise (e : exn).

Arguments Ok {A} a.
Arguments Raise {A} e.

Definition bind {A B : Type} (m : result A) (k : A -> result B) : result B :=
  match m with
  | Ok a => k a
  | Raise e => Raise e
  end.

Notation "x <- m ;; k" := (bind m (fun x => k))
  (at level 61, m at next level, right associativity).

(** [try: body  except ...: handler]: the handler decides, per exception,
    whether to return, to raise anew or to let the exception through. *)
Definition try_except {A : Type} (body : result A) (handler : exn -> result A) : result A :=
  match body with
  | Ok a => Ok a
  | Raise e => handler e
  end.

(** ** Request and response shapes *)

Record RollRequest : Type := mkRollRequest {
  stat_value : Z;
  difficulty : Z
}.

(** The defaults of the pydantic model. *)
Definition RollRequest_default : RollRequest := mkRollRequest 10 12.

(** What a handler hands back to the framework when it does not raise: a
    plain [dict] (HTTP 200) or an explicit [JSONResponse]. *)
Inductive response : Type :=
| Returned (body : pydict)
| JSONResponse (status_code : Z) (content : pydict).

Module GameActionRequest.
Record t : Type := mk {
  scenario : pydict;
  character : pydict;
  history : list strdict;
  action : string
}.
End GameActionRequest.

Module RollResultRequest.
Record t : Type := mk {
  scenario : pydict;
  character : pydict;
  action : string;
  roll_result : pydict
}.
End RollResultRequest.

(** The object the generative client returns: its [text] attribute, when
    it has one. *)
Record genai_response : Type := mkResponse {
  text : option pyval
}.

(** [random.randint(a, b)] returns some integer of the closed interval. *)
Definition randint (a b r : Z) : Prop := a <= r <= b.

(** Python's [>=] on integers. *)
Definition ge_int (a b : Z) : bool := b <=? a.

(** ** The library interface

    What the server calls and the repository does not define: [str(x)] as an
    f-string renders a value, the generative client's
    [client.models.generate_content(model=..., contents=..., config=...)],
    [json.loads], [sep.join(x)] and [json.dumps(x, ensure_ascii=False)]. *)
Class Library : Type := {
  py_str : pyval -> string;
  generate_content : string -> string -> pydict -> result genai_response;
  json_loads : pyval -> result pyval;
  str_join : string -> pyval -> result string;
  json_dumps : pyval -> string
}.

Section Server.

Context {lib : Library}.

(** [str(e)]: the message of the exception; Starlette renders an
    [HTTPException] as its status and detail. *)
Definition str_exn (e : exn) : string :=
  match e with
  | HTTPException status detail => py_str (PInt status) ++ ": " ++ py_str detail
  | JSONDecodeError msg => msg
  | PyException _ msg => msg
  | PyBaseException _ msg => msg
  end.

(** ** Dice resolver *)

(** The [try] block of [roll_dice], given the value [roll] drawn by
    [random.randint(1, 20)]. *)
Definition roll_dice_body (roll : Z) (request : RollRequest) : result response :=
  let stat_value := stat_value request in
  let difficulty := difficulty request in
  let total := roll + (stat_value - 10) / 2 in
  let success := ge_int total difficulty in
  let critical := roll =? 20 in
  let fumble := roll =? 1 in
  Ok (Returned
        [ ("success", PBool true);
          ("roll", PInt roll);
          ("bonus", PInt ((stat_value - 10) / 2));
          ("total", PInt total);
          ("difficulty", PInt difficulty);
          ("is_success", PBool (success || critical));
          ("is_critical", PBool critical);
          ("is_fumble", PBool fumble) ]).

Definition roll_dice (roll : Z) (request : RollRequest) : result response :=
  try_except (roll_dice_body roll request)
    (fun e =>
       if isinstance_Exception e
       then Ok (JSONResponse 500 [("success", PBool false); ("error", PStr (str_exn e))])
       else Raise e).

(** ** Dynamic operations on values *)

(** Truth value of an object, as [if x] and the conditional expression
    test it. *)
Definition py_truthy (v : pyval) : bool :=
  match v with
  | PNone => false
  | PBool b => b
  | PInt n => negb (n =? 0)
  | PFloat f => match f with S754_zero _ => false | _ => true end
  | PStr s => negb (String.eqb s EmptyString)
  | PList items => match items with [] => false | _ => true end
  | PDict entries => match entries with [] => false | _ => true end
  end.

Definition type_name (v : pyval) : string :=
  match v with
  | PNone => "NoneType"
  | PBool _ => "bool"
  | PInt _ => "int"
  | PFloat _ => "float"
  | PStr _ => "str"
  | PList _ => "list"
  | PDict _ => "dict"
  end.

(** [needle in haystack] on strings. *)
Fixpoint is_substring (needle haystack : string) : bool :=
  if String.prefix needle haystack then true
  else match haystack with
       | EmptyString => false
       | String _ rest => is_substring needle rest
       end.

Definition eq_str (k : string) (v : pyval) : bool :=
  match v with PStr s => String.eqb k s | _ => false end.

(** [k in v] for a string [k]: key test on a dict, membership on a list,
    substring on a string, [TypeError] on a value that is not iterable. *)
Definition py_contains (k : string) (v : pyval) : result bool :=
  match v with
  | PDict entries => Ok (Dict.mem k entries)
  | PList items => Ok (existsb (eq_str k) items)
  | PStr s => Ok (is_substring k s)
  | _ => Raise (PyException "TypeError"
                  ("argument of type '" ++ type_name v ++ "' is not iterable"))
  end.

(** [v[k] = x] for a string [k]. *)
Definition py_setitem (v : pyval) (k : string) (x : pyval) : result pyval :=
  match v with
  | PDict entries => Ok (PDict (Dict.set k x entries))
  | PList _ => Raise (PyException "TypeError"
                        "list indices must be integers or slices, not str")
  | _ => Raise (PyException "TypeError"
                  ("'" ++ type_name v ++ "' object does not support item assignment"))
  end.

(** [v.get(k, default)]: only a dict has the method. *)
Definition py_get (k : string) (default : pyval) (v : pyval) : result pyval :=
  match v with
  | PDict entries => Ok (Dict.get_default k default entries)
  | _ => Raise (PyException "AttributeError"
                  ("'" ++ type_name v ++ "' object has no attribute 'get'"))
  end.

(** [h[k]] on a [Dict[str, str]]; [str(KeyError(k))] is the [repr] of the key. *)
Definition getitem (k : string) (h : strdict) : result string :=
  match Dict.get k h with
  | Some v => Ok v
  | None => Raise (PyException "KeyError" ("'" ++ k ++ "'"))
  end.

(** ** Completion client *)

(** The default of the [temperature] parameter: the binary64 nearest to
    0.7, [0x1.6666666666666p-1]. *)
Definition default_temperature : pyval :=
  PFloat (S754_finite false 6305039478318694 (-53)).

(** The keyword dict [config_params] stands for the configuration object
    built from it. *)

Definition call_gemini (prompt system_instruction : string)
    (use_json_mode : bool) (temperature : pyval) : result pyval :=
  try_except
    (let config_params := [("temperature", temperature)] in
     let config_params :=
       if use_json_mode
       then Dict.set "response_mime_type" (PStr "application/json") config_params
       else config_params in
     let config_params :=
       if py_truthy (PStr system_instruction)
       then Dict.set "system_instruction" (PStr system_instruction) config_params
       else config_params in
     response <- generate_content "gemini-2.0-flash-exp" prompt config_params ;;
     match text response with
     | None => Raise (PyException "ValueError" "Gemini 응답에 text 속성이 없습니다.")
     | Some t => Ok t
     end)
    (fun e =>
       if isinstance_Exception e
       then Raise (HTTPException 500
                     (PDict [ ("error", PStr "Gemini 호출 중 오류가 발생했습니다.");
                              ("reason", PStr (str_exn e)) ]))
       else Raise e).

(** ** Response normalizer *)

Definition parse_json_response (text : pyval) : result pyval :=
  try_except
    (parsed <- json_loads text ;;
     let parsed :=
       if isinstance_list parsed then PDict [("items", parsed)] else parsed in
     let parsed :=
       if negb (isinstance_dict parsed) then PDict [("result", parsed)] else parsed in
     Ok parsed)
    (fun e =>
       if isinstance_JSONDecodeError e
       then Raise (HTTPException 500
                     (PDict [ ("error", PStr "AI 응답(JSON) 파싱에 실패했습니다.");
                              ("reason", PStr (str_exn e));
                              ("raw_response", text) ]))
       else Raise e).

(** The post-step shared by the two game-event routes:
    [if 'dialogues' not in result: result['dialogues'] = []]. *)
Definition ensure_dialogues (normalized : pyval) : result pyval :=
  present <- py_contains "dialogues" normalized ;;
  if negb present then py_setitem normalized "dialogues" (PList []) else Ok normalized.

(** ** The game-action route *)

Fixpoint mapM {A B : Type} (f : A -> result B) (l : list A) : result (list B) :=
  match l with
  | [] => Ok []
  | x :: rest =>
      y <- f x ;;
      ys <- mapM f rest ;;
      Ok (y :: ys)
  end.

(** [history[-10:] if len(history) > 10 else history]. *)
Definition recent_history (history : list strdict) : list strdict :=
  if Nat.ltb 10 (List.length history)
  then skipn (List.length history - 10)%nat history
  else history.

(** The conditional chain that tags a history entry by its role; it reads
    [h['role']] up to three times, each time the same string. *)
Definition role_label (role : string) : string :=
  if String.eqb role "gm" then "[GM]"
  else if String.eqb role "player" then "[플레이어]"
  else if String.eqb role "npc" then "[NPC]"
  else "[시스템]".

(** One element of the list comprehension: [f"{label}: {h['text']}"]. *)
Definition history_line (h : strdict) : result string :=
  role <- getitem "role" h ;;
  text <- getitem "text" h ;;
  Ok (role_label role ++ ": " ++ text).

Definition history_text (history : list strdict) : result string :=
  lines <- mapM history_line (recent_history history) ;;
  Ok (String.concat nl lines).

(** The instruction template of [game_action]. *)
Definition game_action_system_instruction : string :=
  String.concat nl
    [ "당신은 TRPG 게임 마스터입니다. 몰입감 있게 진행하세요.";
      EmptyString;
      "중요: ";
      "1. 플레이어의 행동을 다시 묘사하거나 반복하지 마세요. (이미 플레이어가 입력했습니다)";
      "2. 오직 행동에 대한 '결과', 'NPC의 반응', '변화된 상황'만 묘사하세요.";
      "3. 상황 묘사(narration)와 NPC의 대사(dialogues)를 반드시 분리해야 합니다.";
      EmptyString;
      "[이미지 프롬프트 작성 규칙]";
      "- 반드시 영어로 작성하세요.";
      "- 시나리오의 시대적 배경(예: medieval fantasy, cyberpunk, horror)을 가장 앞에 명시하세요.";
      ("- 화풍 키워드 필수 포함: " ++ dq ++ "cinematic lighting, highly detailed, atmospheric, 8k, digital art" ++ dq)%string;
      ("- 인물 묘사가 필요하면 " ++ dq ++ "anime style" ++ dq ++ " 또는 " ++ dq ++ "realistic style" ++ dq ++ " 중 하나를 일관되게 사용하세요.")%string;
      EmptyString;
      "출력은 반드시 다음 JSON 형식이어야 합니다:";
      "{";
      ("  " ++ dq ++ "narration" ++ dq ++ ": " ++ dq ++ "행동의 결과와 상황 변화 (3-5문장, 플레이어 행동 반복 금지)" ++ dq ++ ",")%string;
      ("  " ++ dq ++ "dialogues" ++ dq ++ ": [")%string;
      ("    {" ++ dq ++ "speaker" ++ dq ++ ": " ++ dq ++ "NPC이름" ++ dq ++ ", " ++ dq ++ "text" ++ dq ++ ": " ++ dq ++ "NPC의 대사 내용" ++ dq ++ "},")%string;
      ("    {" ++ dq ++ "speaker" ++ dq ++ ": " ++ dq ++ "NPC이름2" ++ dq ++ ", " ++ dq ++ "text" ++ dq ++ ": " ++ dq ++ "NPC2의 대사 내용" ++ dq ++ "}")%string;
      "  ],";
      ("  " ++ dq ++ "requires_roll" ++ dq ++ ": true 또는 false,")%string;
      ("  " ++ dq ++ "roll_type" ++ dq ++ ": " ++ dq ++ "판정이 필요한 경우 스탯 이름 (strength/agility/intelligence/luck), 필요없으면 null" ++ dq ++ ",")%string;
      ("  " ++ dq ++ "roll_difficulty" ++ dq ++ ": " ++ dq ++ "판정 난이도 숫자 (8-18 사이), 필요없으면 null" ++ dq ++ ",")%string;
      ("  " ++ dq ++ "damage_taken" ++ dq ++ ": " ++ dq ++ "플레이어가 받은 피해 (없으면 0)" ++ dq ++ ",")%string;
      ("  " ++ dq ++ "items_gained" ++ dq ++ ": [" ++ dq ++ "획득한 아이템들" ++ dq ++ "],")%string;
      ("  " ++ dq ++ "items_lost" ++ dq ++ ": [" ++ dq ++ "잃어버린 아이템들" ++ dq ++ "],")%string;
      ("  " ++ dq ++ "npc_present" ++ dq ++ ": " ++ dq ++ "현재 장면에 등장한 NPC 이름 또는 null" ++ dq ++ ",")%string;
      ("  " ++ dq ++ "danger_level" ++ dq ++ ": " ++ dq ++ "safe/caution/danger 중 하나" ++ dq ++ ",")%string;
      ("  " ++ dq ++ "image_prompt" ++ dq ++ ": " ++ dq ++ "시대 배경 + 현재 장면 묘사 + 화풍 키워드 (영어로 작성)" ++ dq)%string;
      "}" ].

(** The f-string of [game_action], its fields evaluated left to right. *)
Definition game_action_prompt (scenario character : pydict)
    (history_text action : string) : result string :=
  let title := py_str (Dict.get_default "title" (PStr EmptyString) scenario) in
  let setting := py_str (Dict.get_default "setting" (PStr EmptyString) scenario) in
  let goal := py_str (Dict.get_default "goal" (PStr EmptyString) scenario) in
  locations <- str_join ", " (Dict.get_default "locations" (PList []) scenario) ;;
  threats <- str_join ", " (Dict.get_default "threats" (PList []) scenario) ;;
  let npcs := json_dumps (Dict.get_default "npcs" (PList []) scenario) in
  let name := py_str (Dict.get_default "name" (PStr EmptyString) character) in
  let class := py_str (Dict.get_default "class" (PStr EmptyString) character) in
  let stats := Dict.get_default "stats" (PDict []) character in
  hp <- py_get "hp" (PInt 100) stats ;;
  maxHp <- py_get "maxHp" (PInt 100) stats ;;
  strength <- py_get "strength" (PInt 10) stats ;;
  agility <- py_get "agility" (PInt 10) stats ;;
  intelligence <- py_get "intelligence" (PInt 10) stats ;;
  luck <- py_get "luck" (PInt 10) stats ;;
  inventory <- str_join ", " (Dict.get_default "inventory" (PList []) character) ;;
  let background := py_str (Dict.get_default "background" (PStr EmptyString) character) in
  Ok (String.concat nl
        [ "[시나리오 정보]";
          ("제목: " ++ title)%string;
          ("배경: " ++ setting)%string;
          ("목표: " ++ goal)%string;
          ("장소들: " ++ locations)%string;
          ("위협요소: " ++ threats)%string;
          EmptyString;
          "[NPC 정보]";
          npcs;
          EmptyString;
          "[플레이어 캐릭터]";
          ("이름: " ++ name)%string;
          ("직업: " ++ class)%string;
          ("HP: " ++ py_str hp ++ "/" ++ py_str maxHp)%string;
          ("힘: " ++ py_str strength ++ " / 민첩: " ++ py_str agility
             ++ " / 지능: " ++ py_str intelligence ++ " / 행운: " ++ py_str luck)%string;
          ("소지품: " ++ inventory)%string;
          ("배경: " ++ background)%string;
          EmptyString;
          "[최근 진행 상황]";
          history_text;
          EmptyString;
          "[플레이어 행동]";
          action;
          EmptyString;
          "(위 행동에 대한 결과만 묘사하세요. 행동 자체를 복창하지 마세요.)" ]).

(** The hand-written reply of the [except Exception] clause. *)
Definition game_action_placeholder : pydict :=
  [ ("narration", PStr "알 수 없는 오류가 발생했습니다.");
    ("dialogues", PList []);
    ("requires_roll", PBool false);
    ("roll_type", PNone);
    ("roll_difficulty", PNone);
    ("damage_taken", PInt 0);
    ("items_gained", PList []);
    ("items_lost", PList []);
    ("npc_present", PNone);
    ("danger_level", PStr "safe");
    ("image_prompt", PNone) ].

(** The [try] block shared, word for word, by the two game-event routes. *)
Definition game_event_body (prompt system_instruction : string) : result response :=
  response_text <- call_gemini prompt system_instruction true default_temperature ;;
  normalized <- parse_json_response response_text ;;
  normalized <- ensure_dialogues normalized ;;
  Ok (Returned [("success", PBool true); ("result", normalized)]).

(** [except HTTPException: raise], then [except Exception as e: return ...]. *)
Definition game_action_except (e : exn) : result response :=
  if isinstance_HTTPException e then Raise e
  else if isinstance_Exception e
       then Ok (Returned [("success", PBool true);
                          ("result", PDict game_action_placeholder)])
       else Raise e.

Definition game_action (request : GameActionRequest.t) : result response :=
  let scenario := GameActionRequest.scenario request in
  let character := GameActionRequest.character request in
  let history := GameActionRequest.history request in
  let action := GameActionRequest.action request in
  history_text <- history_text history ;;
  let system_instruction := game_action_system_instruction in
  prompt <- game_action_prompt scenario character history_text action ;;
  try_except (game_event_body prompt system_instruction) game_action_except.

(** ** The roll-result route *)

Definition success_text (roll_result : pydict) : string :=
  if py_truthy (Dict.get_default "is_critical" PNone roll_result) then "대성공!"
  else if py_truthy (Dict.get_default "is_success" PNone roll_result) then "성공!"
  else if py_truthy (Dict.get_default "is_fumble" PNone roll_result) then "대실패..."
  else "실패...".

(** The instruction template of [roll_result_narration]. *)
Definition roll_result_system_instruction : string :=
  String.concat nl
    [ "당신은 TRPG 게임 마스터입니다.";
      EmptyString;
      "중요: 플레이어의 행동을 반복 서술하지 마세요. 판정 결과에 따른 '결과'만 묘사하세요.";
      EmptyString;
      "[이미지 프롬프트 작성 규칙]";
      "- 반드시 영어로 작성하세요.";
      "- 시나리오의 시대적 배경(예: medieval fantasy)을 포함하세요.";
      ("- 화풍 키워드 필수: " ++ dq ++ "cinematic lighting, highly detailed, atmospheric, 8k" ++ dq)%string;
      EmptyString;
      "출력은 반드시 다음 JSON 형식이어야 합니다:";
      "{";
      ("  " ++ dq ++ "narration" ++ dq ++ ": " ++ dq ++ "결과 묘사 (2-4문장, NPC 대사 제외, 행동 반복 금지)" ++ dq ++ ",")%string;
      ("  " ++ dq ++ "dialogues" ++ dq ++ ": [")%string;
      ("    {" ++ dq ++ "speaker" ++ dq ++ ": " ++ dq ++ "NPC이름" ++ dq ++ ", " ++ dq ++ "text" ++ dq ++ ": " ++ dq ++ "NPC의 대사 내용" ++ dq ++ "}")%string;
      "  ],";
      ("  " ++ dq ++ "damage_taken" ++ dq ++ ": " ++ dq ++ "실패로 인한 피해 (0-20)" ++ dq ++ ",")%string;
      ("  " ++ dq ++ "items_gained" ++ dq ++ ": [" ++ dq ++ "성공시 획득 아이템" ++ dq ++ "],")%string;
      ("  " ++ dq ++ "danger_level" ++ dq ++ ": " ++ dq ++ "safe/caution/danger" ++ dq ++ ",")%string;
      ("  " ++ dq ++ "image_prompt" ++ dq ++ ": " ++ dq ++ "시대 배경 + 현재 장면 묘사 + 화풍 키워드 (영어로 작성)" ++ dq)%string;
      "}" ].

Definition roll_result_prompt (character roll_result : pydict) (action : string) : string :=
  String.concat nl
    [ ("플레이어가 " ++ dq ++ action ++ dq ++ " 행동을 시도했고, 주사위 판정 결과는 ["
         ++ success_text roll_result ++ "]입니다.")%string;
      ("주사위: " ++ py_str (Dict.get_default "roll" PNone roll_result)
         ++ " + 보너스 " ++ py_str (Dict.get_default "bonus" PNone roll_result)
         ++ " = " ++ py_str (Dict.get_default "total" PNone roll_result)
         ++ " (목표: " ++ py_str (Dict.get_default "difficulty" PNone roll_result) ++ ")")%string;
      EmptyString;
      ("캐릭터: " ++ py_str (Dict.get_default "name" PNone character)
         ++ " (" ++ py_str (Dict.get_default "class" PNone character) ++ ")")%string;
      EmptyString;
      "판정 결과에 맞는 상황 묘사를 생성해주세요." ].

(** The hand-written reply of the bare [except:] clause. *)
Definition roll_result_placeholder : pydict :=
  [ ("narration", PStr "판정 결과가 적용되었습니다.");
    ("dialogues", PList []);
    ("damage_taken", PInt 0);
    ("items_gained", PList []);
    ("danger_level", PStr "safe");
    ("image_prompt", PNone) ].

(** A bare [except:] catches every exception, [BaseException] included. *)
Definition roll_result_except (e : exn) : result response :=
  Ok (Returned [("success", PBool true);
                ("result", PDict roll_result_placeholder)]).

Definition roll_result_narration (request : RollResultRequest.t) : result response :=
  let scenario := RollResultRequest.scenario request in
  let character := RollResultRequest.character request in
  let action := RollResultRequest.action request in
  let roll_result := RollResultRequest.roll_result request in
  let system_instruction := roll_result_system_instruction in
  let prompt := roll_result_prompt character roll_result action in
  try_except (game_event_body prompt system_instruction) roll_result_except.

End Server.

(** ** Reference models of the library functions

    Executable stand-ins for the Python built-ins the server calls, used to
    run the handlers on concrete requests.  Each is exact on the fragment
    its comment names; outside it the model says so ([NotImplementedError])
    instead of guessing. *)

Module Ref.

Definition str_of_nat (n : nat) : string := NilZero.string_of_uint (Nat.to_uint n).
Definition str_of_Z (n : Z) : string := NilZero.string_of_int (Z.to_int n).

(** *** [json.loads]

    The scanner of the [json] package on [str] input: whitespace, the three
    literals, integers, strings with the one-letter escapes, arrays and
    objects, and its diagnostics with their position.  Float literals,
    [NaN], [Infinity] and [\u] escapes are outside the fragment.  Positions
    count bytes, which are characters on ASCII text. *)

Inductive scan (A : Type) : Type :=
| Scanned (a : A) (rest : string) (pos : nat)
| DecodeError (msg : string) (pos : nat)
| StopIteration (pos : nat)
| Unsupported (what : string)
| Exhausted.

Arguments Scanned {A} a rest pos.
Arguments DecodeError {A} msg pos.
Arguments StopIteration {A} pos.
Arguments Unsupported {A} what.
Arguments Exhausted {A}.

Definition is_ws (c : ascii) : bool :=
  match nat_of_ascii c with
  | 32%nat | 9%nat | 10%nat | 13%nat => true
  | _ => false
  end.

Definition is_digit (c : ascii) : bool :=
  (Nat.leb 48 (nat_of_ascii c) && Nat.leb (nat_of_ascii c) 57)%bool.

Fixpoint skip_ws (s : string) (pos : nat) : string * nat :=
  match s with
  | String c rest => if is_ws c then skip_ws rest (S pos) else (s, pos)
  | EmptyString => (s, pos)
  end.

Fixpoint strip_prefix (p s : string) : option string :=
  match p, s with
  | EmptyString, _ => Some s
  | String a p', String b s' => if Ascii.eqb a b then strip_prefix p' s' else None
  | String _ _, EmptyString => None
  end.

Fixpoint digits (s : string) (acc : Z) (pos : nat) : Z * string * nat :=
  match s with
  | String c rest =>
      if is_digit c
      then digits rest (acc * 10 + (Z.of_nat (nat_of_ascii c) - 48)) (S pos)
      else (acc, s, pos)
  | EmptyString => (acc, s, pos)
  end.

Definition starts_with_digit (s : string) : bool :=
  match s with String c _ => is_digit c | EmptyString => false end.

(** Does a fraction or an exponent follow the integer part? *)
Definition continues_as_float (s : string) : bool :=
  match s with
  | String "." rest => starts_with_digit rest
  | String "e" rest | String "E" rest =>
      match rest with
      | String "+" rest' | String "-" rest' => starts_with_digit rest'
      | _ => starts_with_digit rest
      end
  | _ => false
  end.

Definition scan_number (s : string) (pos : nat) : scan pyval :=
  let '(negative, s1, p1) :=
    match s with
    | String "-" rest => (true, rest, S pos)
    | _ => (false, s, pos)
    end in
  if starts_with_digit s1 then
    let '(n, s2, p2) :=
      match s1 with
      | String "0" rest => (0, rest, S p1)
      | _ => digits s1 0 p1
      end in
    if continues_as_float s2 then Unsupported "float literal"
    else Scanned (PInt (if negative then - n else n)) s2 p2
  else
    match strip_prefix "NaN" s, strip_prefix "Infinity" s, strip_prefix "-Infinity" s with
    | None, None, None => StopIteration pos
    | _, _, _ => Unsupported "non-finite float literal"
    end.

Definition unescape (c : ascii) : option ascii :=
  match c with
  | "034"%char => Some "034"%char
  | "\"%char => Some "\"%char
  | "/"%char => Some "/"%char
  | "b"%char => Some (ascii_of_nat 8)
  | "f"%char => Some (ascii_of_nat 12)
  | "n"%char => Some (ascii_of_nat 10)
  | "r"%char => Some (ascii_of_nat 13)
  | "t"%char => Some (ascii_of_nat 9)
  | _ => None
  end.

(** The body of a string, from just after its opening quote at [begin]. *)
Fixpoint scan_string (s : string) (pos begin : nat) : scan string :=
  match s with
  | EmptyString => DecodeError "Unterminated string starting at" begin
  | String "034" rest => Scanned EmptyString rest (S pos)
  | String "\" EmptyString => DecodeError "Unterminated string starting at" begin
  | String "\" (String "u" _) => Unsupported "unicode escape"
  | String "\" (String c rest) =>
      match unescape c with
      | None => DecodeError "Invalid \escape" pos
      | Some c' =>
          match scan_string rest (S (S pos)) begin with
          | Scanned str rest' pos' => Scanned (String c' str) rest' pos'
          | other => other
          end
      end
  | String c rest =>
      if Nat.ltb (nat_of_ascii c) 32
      then DecodeError "Invalid control character at" pos
      else match scan_string rest (S pos) begin with
           | Scanned str rest' pos' => Scanned (String c str) rest' pos'
           | other => other
           end
  end.

Definition lift_string (r : scan string) : scan pyval :=
  match r with
  | Scanned str rest pos => Scanned (PStr str) rest pos
  | DecodeError msg pos => DecodeError msg pos
  | StopIteration pos => StopIteration pos
  | Unsupported what => Unsupported what
  | Exhausted => Exhausted
  end.

Definition scan_literal (s : string) (pos : nat) : scan pyval :=
  match strip_prefix "null" s, strip_prefix "true" s, strip_prefix "false" s with
  | Some rest, _, _ => Scanned PNone rest (pos + 4)
  | _, Some rest, _ => Scanned (PBool true) rest (pos + 4)
  | _, _, Some rest => Scanned (PBool false) rest (pos + 5)
  | None, None, None => scan_number s pos
  end.

Fixpoint scan_once (fuel : nat) (s : string) (pos : nat) {struct fuel} : scan pyval :=
  match fuel with
  | O => Exhausted
  | S fuel' =>
      match s with
      | EmptyString => StopIteration pos
      | String "034" rest => lift_string (scan_string rest (S pos) pos)
      | String "[" rest =>
          let '(s1, p1) := skip_ws rest (S pos) in
          match s1 with
          | String "]" rest' => Scanned (PList []) rest' (S p1)
          | _ => scan_items fuel' s1 p1 []
          end
      | String "{" rest =>
          let '(s1, p1) := skip_ws rest (S pos) in
          match s1 with
          | String "}" rest' => Scanned (PDict []) rest' (S p1)
          | String "034" rest' => scan_pairs fuel' rest' (S p1) []
          | _ => DecodeError "Expecting property name enclosed in double quotes" p1
          end
      | _ => scan_literal s pos
      end
  end

with scan_items (fuel : nat) (s : string) (pos : nat) (acc : list pyval)
    {struct fuel} : scan pyval :=
  match fuel with
  | O => Exhausted
  | S fuel' =>
      match scan_once fuel' s pos with
      | Scanned v s1 p1 =>
          let '(s2, p2) := skip_ws s1 p1 in
          match s2 with
          | String "]" rest => Scanned (PList (rev (v :: acc))) rest (S p2)
          | String "," rest =>
              let '(s3, p3) := skip_ws rest (S p2) in
              scan_items fuel' s3 p3 (v :: acc)
          | _ => DecodeError "Expecting ',' delimiter" p2
          end
      | StopIteration p => DecodeError "Expecting value" p
      | other => other
      end
  end

with scan_pairs (fuel : nat) (s : string) (pos : nat) (acc : pydict)
    {struct fuel} : scan pyval :=
  match fuel with
  | O => Exhausted
  | S fuel' =>
      match scan_string s pos (pos - 1) with
      | Scanned key s1 p1 =>
          let '(s2, p2) := skip_ws s1 p1 in
          match s2 with
          | String ":" rest =>
              let '(s3, p3) := skip_ws rest (S p2) in
              match scan_once fuel' s3 p3 with
              | Scanned v s4 p4 =>
                  let '(s5, p5) := skip_ws s4 p4 in
                  match s5 with
                  | String "}" rest' => Scanned (PDict (Dict.set key v acc)) rest' (S p5)
                  | String "," rest' =>
                      let '(s6, p6) := skip_ws rest' (S p5) in
                      match s6 with
                      | String "034" rest'' =>
                          scan_pairs fuel' rest'' (S p6) (Dict.set key v acc)
                      | _ => DecodeError
                               "Expecting property name enclosed in double quotes" p6
                      end
                  | _ => DecodeError "Expecting ',' delimiter" p5
                  end
              | StopIteration p => DecodeError "Expecting value" p
              | other => other
              end
          | _ => DecodeError "Expecting ':' delimiter" p2
          end
      | DecodeError msg p => DecodeError msg p
      | StopIteration p => StopIteration p
      | Unsupported what => Unsupported what
      | Exhausted => Exhausted
      end
  end.

(** Line and column (both from 1) of the character at offset [pos]. *)
Fixpoint line_col (doc : string) (pos line col : nat) : nat * nat :=
  match pos, doc with
  | S pos', String c rest =>
      if Nat.eqb (nat_of_ascii c) 10
      then line_col rest pos' (S line) 1
      else line_col rest pos' line (S col)
  | _, _ => (line, col)
  end.

(** [str(JSONDecodeError(msg, doc, pos))]. *)
Definition errmsg (msg doc : string) (pos : nat) : string :=
  let '(line, col) := line_col doc pos 1 1 in
  msg ++ ": line " ++ str_of_nat line ++ " column " ++ str_of_nat col
      ++ " (char " ++ str_of_nat pos ++ ")".

Definition utf8_bom : string :=
  String (ascii_of_nat 239) (String (ascii_of_nat 187) (String (ascii_of_nat 191) EmptyString)).

Definition json_loads (v : pyval) : result pyval :=
  match v with
  | PStr doc =>
      if String.prefix utf8_bom doc
      then Raise (JSONDecodeError
                    (errmsg "Unexpected UTF-8 BOM (decode using utf-8-sig)" doc 0))
      else
        let '(s, p) := skip_ws doc 0 in
        match scan_once (2 * String.length doc + 2) s p with
        | Scanned obj s1 p1 =>
            let '(s2, p2) := skip_ws s1 p1 in
            match s2 with
            | EmptyString => Ok obj
            | _ => Raise (JSONDecodeError (errmsg "Extra data" doc p2))
            end
        | StopIteration p1 => Raise (JSONDecodeError (errmsg "Expecting value" doc p1))
        | DecodeError msg p1 => Raise (JSONDecodeError (errmsg msg doc p1))
        | Unsupported what => Raise (PyException "NotImplementedError" what)
        | Exhausted => Raise (PyException "RecursionError"
                                "maximum recursion depth exceeded")
        end
  | _ => Raise (PyException "TypeError"
                  ("the JSON object must be str, bytes or bytearray, not "
                     ++ type_name v))
  end.

(** *** [repr], [str], [json.dumps] and [str.join]

    Exact on values built from [None], booleans, integers, lists, dicts and
    strings; a float is rendered as a marker, its shortest decimal form
    being outside the fragment. *)

Definition hex_digit (n : nat) : ascii :=
  if Nat.ltb n 10 then ascii_of_nat (48 + n) else ascii_of_nat (87 + n).

Definition hex2 (c : ascii) : string :=
  let n := nat_of_ascii c in
  String (hex_digit (Nat.div n 16)) (String (hex_digit (Nat.modulo n 16)) EmptyString).

Fixpoint contains_char (c : ascii) (s : string) : bool :=
  match s with
  | EmptyString => false
  | String c' rest => (Ascii.eqb c c' || contains_char c rest)%bool
  end.

(** The characters of a string literal under [repr], inside quote [quote]. *)
Fixpoint repr_chars (quote : ascii) (s : string) : string :=
  match s with
  | EmptyString => EmptyString
  | String c rest =>
      let n := nat_of_ascii c in
      let head :=
        if Ascii.eqb c "\" then "\\"
        else if Ascii.eqb c quote then String "\" (String c EmptyString)
        else if Nat.eqb n 10 then "\n"
        else if Nat.eqb n 13 then "\r"
        else if Nat.eqb n 9 then "\t"
        else if (Nat.ltb n 32 || Nat.eqb n 127)%bool then "\x" ++ hex2 c
        else String c EmptyString in
      head ++ repr_chars quote rest
  end.

Definition repr_str (s : string) : string :=
  let quote :=
    if (contains_char "'" s && negb (contains_char "034" s))%bool
    then "034"%char else "'"%char in
  String quote (repr_chars quote s ++ String quote EmptyString).

Definition float_marker : string := "<float>".

Fixpoint repr (v : pyval) : string :=
  match v with
  | PNone => "None"
  | PBool true => "True"
  | PBool false => "False"
  | PInt n => str_of_Z n
  | PFloat _ => float_marker
  | PStr s => repr_str s
  | PList items => "[" ++ String.concat ", " (map repr items) ++ "]"
  | PDict entries =>
      "{" ++ String.concat ", "
               (map (fun kv => let '(k, x) := kv in repr_str k ++ ": " ++ repr x) entries)
          ++ "}"
  end.

Definition py_str (v : pyval) : string :=
  match v with
  | PStr s => s
  | _ => repr v
  end.

(** The characters of a JSON string literal with [ensure_ascii=False]. *)
Fixpoint json_chars (s : string) : string :=
  match s with
  | EmptyString => EmptyString
  | String c rest =>
      let n := nat_of_ascii c in
      let head :=
        if Ascii.eqb c "\" then "\\"
        else if Ascii.eqb c "034" then String "\" dq
        else if Nat.eqb n 10 then "\n"
        else if Nat.eqb n 13 then "\r"
        else if Nat.eqb n 9 then "\t"
        else if Nat.eqb n 8 then "\b"
        else if Nat.eqb n 12 then "\f"
        else if Nat.ltb n 32 then "\u00" ++ hex2 c
        else String c EmptyString in
      head ++ json_chars rest
  end.

Definition json_str (s : string) : string := dq ++ json_chars s ++ dq.

Fixpoint json_dumps (v : pyval) : string :=
  match v with
  | PNone => "null"
  | PBool true => "true"
  | PBool false => "false"
  | PInt n => str_of_Z n
  | PFloat _ => float_marker
  | PStr s => json_str s
  | PList items => "[" ++ String.concat ", " (map json_dumps items) ++ "]"
  | PDict entries =>
      "{" ++ String.concat ", "
               (map (fun kv => let '(k, x) := kv in json_str k ++ ": " ++ json_dumps x)
                    entries)
          ++ "}"
  end.

(** The strings of a list, or the index and type of the first element that
    is not one. *)
Fixpoint all_strings (items : list pyval) (i : nat) : (nat * pyval) + list string :=
  match items with
  | [] => inr []
  | PStr s :: rest =>
      match all_strings rest (S i) with
      | inr strs => inr (s :: strs)
      | inl bad => inl bad
      end
  | x :: _ => inl (i, x)
  end.

(** UTF-8 continuation bytes stay with the byte that leads them. *)
Definition is_continuation (c : ascii) : bool :=
  (Nat.leb 128 (nat_of_ascii c) && Nat.ltb (nat_of_ascii c) 192)%bool.

Definition starts_continuation (ch : string) : bool :=
  match ch with String c _ => is_continuation c | EmptyString => false end.

Fixpoint characters (s : string) : list string :=
  match s with
  | EmptyString => []
  | String c rest =>
      match characters rest with
      | [] => [String c EmptyString]
      | ch :: chs =>
          if starts_continuation ch
          then String c ch :: chs
          else String c EmptyString :: ch :: chs
      end
  end.

Definition str_join (sep : string) (v : pyval) : result string :=
  match v with
  | PList items =>
      match all_strings items 0 with
      | inr strs => Ok (String.concat sep strs)
      | inl (i, x) =>
          Raise (PyException "TypeError"
                   ("sequence item " ++ str_of_nat i ++ ": expected str instance, "
                      ++ type_name x ++ " found"))
      end
  | PDict entries => Ok (String.concat sep (map fst entries))
  | PStr s => Ok (String.concat sep (characters s))
  | _ => Raise (PyException "TypeError" "can only join an iterable")
  end.

(** *** Generative clients *)

(** A client whose call fails. *)
Definition client_raising (e : exn) : string -> string -> pydict -> result genai_response :=
  fun _ _ _ => Raise e.

(** A client that answers every prompt with the same [text] attribute. *)
Definition client_answering (t : pyval) : string -> string -> pydict -> result genai_response :=
  fun _ _ _ => Ok (mkResponse (Some t)).

(** A client whose answer has no [text] attribute. *)
Definition client_without_text : string -> string -> pydict -> result genai_response :=
  fun _ _ _ => Ok (mkResponse None).

(** The library around a given client. *)
Definition library
    (client : string -> string -> pydict -> result genai_response) : Library :=
  Build_Library py_str client json_loads str_join json_dumps.

End Ref.

(** ** Reading a handler's reply *)

(** The value under key [k] of the dict a handler returned, when it did
    return one. *)
Definition field (k : string) (r : result response) : option pyval :=
  match r with
  | Ok (Returned body) => Dict.get k body
  | _ => None
  end.

(** The success envelope of the game-event routes around [event]. *)
Definition game_event_reply (event : pyval) : result response :=
  Ok (Returned [("success", PBool true); ("result", event)]).

(** The role and text of a history entry that has both keys. *)
Definition entry_fields (h : strdict) : option (string * string) :=
  match Dict.get "role" h, Dict.get "text" h with
  | Some role, Some text => Some (role, text)
  | _, _ => None
  end.

(** The line a (role, text) pair is serialized to. *)
Definition tagged_line (entry : string * string) : string :=
  role_label (fst entry) ++ ": " ++ snd entry.

(** The last five lines of the game-action prompt around the history. *)
Definition prompt_with_history (header history_text action : string) : string :=
  String.concat nl
    [ header;
      "[최근 진행 상황]";
      history_text;
      EmptyString;
      "[플레이어 행동]";
      action;
      EmptyString;
      "(위 행동에 대한 결과만 묘사하세요. 행동 자체를 복창하지 마세요.)" ].

(** ** Sample requests *)

(** The request that [test_action] sends. *)
Definition sample_scenario : pydict :=
  [ ("title", PStr "테스트 던전");
    ("setting", PStr "어두운 던전");
    ("goal", PStr "보물 찾기");
    ("locations", PList [PStr "입구"; PStr "복도"; PStr "보물방"]);
    ("threats", PList [PStr "함정"; PStr "몬스터"]);
    ("npcs", PList [PDict [ ("name", PStr "가이드");
                            ("role", PStr "조력자");
                            ("personality", PStr "친절함") ]]) ].

Definition sample_character : pydict :=
  [ ("name", PStr "테스트 영웅");
    ("class", PStr "전사");
    ("stats", PDict [ ("hp", PInt 80);
                      ("maxHp", PInt 100);
                      ("strength", PInt 15);
                      ("agility", PInt 12);
                      ("intelligence", PInt 10);
                      ("luck", PInt 8) ]);
    ("inventory", PList [PStr "검"; PStr "횃불"]);
    ("background", PStr "용감한 모험가") ].

Definition sample_action_request : GameActionRequest.t :=
  GameActionRequest.mk sample_scenario sample_character []
    "앞으로 조심스럽게 걸어간다".

(** [test_roll]'s request. *)
Definition sample_roll_request : RollRequest := mkRollRequest 14 12.

(** The reply to a roll of 17 on that request, as the client sends it back
    to the roll-result route. *)
Definition sample_roll_result : pydict :=
  [ ("success", PBool true);
    ("roll", PInt 17);
    ("bonus", PInt 2);
    ("total", PInt 19);
    ("difficulty", PInt 12);
    ("is_success", PBool true);
    ("is_critical", PBool false);
    ("is_fumble", PBool false) ].

Definition sample_roll_result_request : RollResultRequest.t :=
  RollResultRequest.mk sample_scenario sample_character
    "앞으로 조심스럽게 걸어간다" sample_roll_result.

(** Fifteen turns, the roles in rotation. *)
Definition sample_entry (role text : string) : strdict :=
  [("role", role); ("text", text)].

Definition sample_history : list strdict :=
  [ sample_entry "gm" "turn 1";
    sample_entry "player" "turn 2";
    sample_entry "npc" "turn 3";
    sample_entry "system" "turn 4";
    sample_entry "narrator" "turn 5";
    sample_entry "gm" "turn 6";
    sample_entry "player" "turn 7";
    sample_entry "npc" "turn 8";
    sample_entry "system" "turn 9";
    sample_entry "narrator" "turn 10";
    sample_entry "gm" "turn 11";
    sample_entry "player" "turn 12";
    sample_entry "npc" "turn 13";
    sample_entry "system" "turn 14";
    sample_entry "narrator" "turn 15" ].

(** The generative service is unreachable. *)
Definition lib_unreachable : Library :=
  Ref.library (Ref.client_raising (PyException "ConnectionError" "connection refused")).

(** The generative service answers with the given [text] attribute. *)
Definition lib_answering (t : pyval) : Library :=
  Ref.library (Ref.client_answering t).

(** A well-formed answer that has no [dialogues] key. *)
Definition narration_only : string :=
  "{" ++ dq ++ "narration" ++ dq ++ ": " ++ dq ++ "The door creaks open." ++ dq ++ "}".

(** * The remaining routes and the start-up *)

(** ** Request shapes *)

Module GenerateRequest.
Record t : Type := mk {
  prompt : string
}.
End GenerateRequest.

Module ScenarioRequest.
Record t : Type := mk {
  theme : string
}.
End ScenarioRequest.

(** [theme: Optional[str] = "fantasy"]. *)
Module ImagePromptRequest.
Record t : Type := mk {
  prompt : string;
  theme : option string
}.
End ImagePromptRequest.

(** [scenario: Optional[Dict[str, Any]] = None]. *)
Module GenerateImagePromptRequest.
Record t : Type := mk {
  scene : string;
  scenario : option pydict
}.
End GenerateImagePromptRequest.

(** [s.strip()] on a string, the one string method the server calls. *)
Class Strings : Type := mkStrings {
  str_strip : string -> string
}.

(** A reference [strip]: the characters Python counts as white space, in
    their UTF-8 encoding, removed from both ends. *)
Module RefStrings.

Definition bytes (codes : list nat) : string :=
  fold_right (fun n s => String (ascii_of_nat n) s) EmptyString codes.

Definition ascii_space (ch : string) : bool :=
  match ch with
  | String c EmptyString =>
      let n := nat_of_ascii c in
      ((Nat.leb 9 n && Nat.leb n 13) || (Nat.leb 28 n && Nat.leb n 32))%bool
  | _ => false
  end.

(** U+2000 to U+200A, [E2 80 80] to [E2 80 8A]. *)
Definition en_quad_to_hair_space (ch : string) : bool :=
  match ch with
  | String a (String b (String c EmptyString)) =>
      (Nat.eqb (nat_of_ascii a) 226 && Nat.eqb (nat_of_ascii b) 128
       && Nat.leb 128 (nat_of_ascii c) && Nat.leb (nat_of_ascii c) 138)%bool
  | _ => false
  end.

(** U+0085, U+00A0, U+1680, U+2028, U+2029, U+202F, U+205F and U+3000. *)
Definition other_spaces : list string :=
  [ bytes [194; 133]; bytes [194; 160]; bytes [225; 154; 128];
    bytes [226; 128; 168]; bytes [226; 128; 169]; bytes [226; 128; 175];
    bytes [226; 129; 159]; bytes [227; 128; 128] ]%nat.

Definition isspace (ch : string) : bool :=
  (ascii_space ch || en_quad_to_hair_space ch
   || existsb (String.eqb ch) other_spaces)%bool.

Fixpoint lstrip (chars : list string) : list string :=
  match chars with
  | ch :: rest => if isspace ch then lstrip rest else chars
  | [] => []
  end.

Definition strip (s : string) : string :=
  String.concat EmptyString (rev (lstrip (rev (lstrip (Ref.characters s))))).

Definition strings : Strings := mkStrings strip.

End RefStrings.

Section Routes.

Context {lib : Library} {strings : Strings}.

(** [x.strip()]: only a string has the method. *)
Definition py_strip (v : pyval) : result pyval :=
  match v with
  | PStr s => Ok (PStr (str_strip s))
  | _ => Raise (PyException "AttributeError"
                  ("'" ++ type_name v ++ "' object has no attribute 'strip'"))
  end.

(** [result[k] = x] on what a handler returned. *)
Definition response_setitem (r : response) (k : string) (x : pyval) : result response :=
  match r with
  | Returned body => Ok (Returned (Dict.set k x body))
  | JSONResponse _ _ =>
      Raise (PyException "TypeError"
               "'JSONResponse' object does not support item assignment")
  end.

(** [result.get(k)] on what a handler returned. *)
Definition response_get (r : response) (k : string) : result pyval :=
  match r with
  | Returned body => Ok (Dict.get_default k PNone body)
  | JSONResponse _ _ =>
      Raise (PyException "AttributeError"
               "'JSONResponse' object has no attribute 'get'")
  end.

(** [except HTTPException: raise], then [except Exception as e] returning
    the status 500 with [str(e)]. *)
Definition reraise_http_else_500 (e : exn) : result response :=
  if isinstance_HTTPException e then Raise e
  else if isinstance_Exception e
       then Ok (JSONResponse 500 [("success", PBool false); ("error", PStr (str_exn e))])
       else Raise e.

(** ** Text generation *)

Definition generate (request : GenerateRequest.t) : result response :=
  try_except
    (response_text <- call_gemini (GenerateRequest.prompt request) EmptyString
                        false default_temperature ;;
     Ok (Returned [("success", PBool true); ("result", response_text)]))
    reraise_http_else_500.

(** ** Scenario generation *)

(** The instruction template of [generate_scenario]. *)
Definition generate_scenario_system_instruction : string :=
  String.concat nl
    [ "당신은 TRPG 시나리오 작가입니다.";
      "사용자가 제공한 주제를 바탕으로 흥미진진한 TRPG 시나리오를 생성합니다.";
      EmptyString;
      "출력은 반드시 다음 JSON 형식이어야 합니다:";
      "{";
      ("  " ++ dq ++ "title" ++ dq ++ ": " ++ dq ++ "시나리오 제목 (한글)" ++ dq ++ ",")%string;
      ("  " ++ dq ++ "setting" ++ dq ++ ": " ++ dq ++ "세계관 설명 2-3문장" ++ dq ++ ",")%string;
      ("  " ++ dq ++ "goal" ++ dq ++ ": " ++ dq ++ "플레이어의 최종 목표" ++ dq ++ ",")%string;
      ("  " ++ dq ++ "starting_scene" ++ dq ++ ": " ++ dq ++ "게임 시작 시 첫 장면 묘사 (3-4문장, 생생하게)" ++ dq ++ ",")%string;
      ("  " ++ dq ++ "locations" ++ dq ++ ": [" ++ dq ++ "장소1" ++ dq ++ ", " ++ dq ++ "장소2" ++ dq ++ ", " ++ dq ++ "장소3" ++ dq ++ ", " ++ dq ++ "장소4" ++ dq ++ ", " ++ dq ++ "장소5" ++ dq ++ "],")%string;
      ("  " ++ dq ++ "npcs" ++ dq ++ ": [")%string;
      ("    {" ++ dq ++ "name" ++ dq ++ ": " ++ dq ++ "NPC이름1" ++ dq ++ ", " ++ dq ++ "role" ++ dq ++ ": " ++ dq ++ "역할" ++ dq ++ ", " ++ dq ++ "personality" ++ dq ++ ": " ++ dq ++ "성격 특징" ++ dq ++ "},")%string;
      ("    {" ++ dq ++ "name" ++ dq ++ ": " ++ dq ++ "NPC이름2" ++ dq ++ ", " ++ dq ++ "role" ++ dq ++ ": " ++ dq ++ "역할" ++ dq ++ ", " ++ dq ++ "personality" ++ dq ++ ": " ++ dq ++ "성격 특징" ++ dq ++ "},")%string;
      ("    {" ++ dq ++ "name" ++ dq ++ ": " ++ dq ++ "NPC이름3" ++ dq ++ ", " ++ dq ++ "role" ++ dq ++ ": " ++ dq ++ "역할" ++ dq ++ ", " ++ dq ++ "personality" ++ dq ++ ": " ++ dq ++ "성격 특징" ++ dq ++ "}")%string;
      "  ],";
      ("  " ++ dq ++ "threats" ++ dq ++ ": [" ++ dq ++ "위협요소1" ++ dq ++ ", " ++ dq ++ "위협요소2" ++ dq ++ ", " ++ dq ++ "위협요소3" ++ dq ++ "],")%string;
      ("  " ++ dq ++ "items" ++ dq ++ ": [" ++ dq ++ "획득가능 아이템1" ++ dq ++ ", " ++ dq ++ "아이템2" ++ dq ++ ", " ++ dq ++ "아이템3" ++ dq ++ ", " ++ dq ++ "아이템4" ++ dq ++ ", " ++ dq ++ "아이템5" ++ dq ++ "]")%string;
      "}" ].
Definition generate_scenario (request : ScenarioRequest.t) : result response :=
  let system_instruction := generate_scenario_system_instruction in
  let prompt :=
    "주제: " ++ ScenarioRequest.theme request ++ nl ++ nl
      ++ "위 주제로 TRPG 시나리오를 생성해주세요." in
  try_except
    (response_text <- call_gemini prompt system_instruction true default_temperature ;;
     scenario <- parse_json_response response_text ;;
     Ok (Returned [("success", PBool true); ("scenario", scenario)]))
    reraise_http_else_500.

(** ** Image prompts *)

(** The instruction template of [enhance_image_prompt]. *)
Definition enhance_image_prompt_system_instruction : string :=
  String.concat nl
    [ "You are an expert at writing image generation prompts.";
      "Convert basic scene descriptions into detailed, artistic image prompts.";
      EmptyString;
      "Include:";
      "- Art style (e.g., digital art, oil painting, cinematic, anime)";
      "- Lighting and atmosphere";
      "- Color palette";
      "- Composition details";
      "- Mood and emotion";
      EmptyString;
      "Respond with ONLY the enhanced prompt, no explanations. Keep it under 200 words." ].
(** [f"{x}"] of an [Optional[str]]. *)
Definition format_optional (x : option string) : string :=
  match x with
  | Some s => s
  | None => py_str PNone
  end.

Definition enhance_image_prompt (request : ImagePromptRequest.t) : result response :=
  let system_instruction := enhance_image_prompt_system_instruction in
  let prompt :=
    String.concat nl
      [ ("Basic description: " ++ ImagePromptRequest.prompt request)%string;
        ("Theme/Genre: " ++ format_optional (ImagePromptRequest.theme request))%string;
        EmptyString;
        "Create a detailed image generation prompt." ] in
  try_except
    (response_text <- call_gemini prompt system_instruction false default_temperature ;;
     enhanced <- py_strip response_text ;;
     Ok (Returned [("success", PBool true); ("enhanced_prompt", enhanced)]))
    (fun e =>
       if isinstance_Exception e
       then Ok (Returned [ ("success", PBool false);
                           ("error", PStr (str_exn e));
                           ("enhanced_prompt", PStr (ImagePromptRequest.prompt request)) ])
       else Raise e).

(** The instruction template of [generate_image_prompt]. *)
Definition generate_image_prompt_system_instruction : string :=
  String.concat nl
    [ "Create an image generation prompt for this TRPG scene.";
      EmptyString;
      "Write a detailed image prompt in English (under 150 words) that captures:";
      "- The environment and location";
      "- Lighting and atmosphere";
      "- Key visual elements";
      "- Mood (tense, peaceful, mysterious, etc.)";
      EmptyString;
      "Style: cinematic digital art, dramatic lighting";
      EmptyString;
      "Respond with ONLY the prompt, nothing else." ].
(** [request.scenario or {}]. *)
Definition scenario_or_empty (scenario : option pydict) : pydict :=
  match scenario with
  | Some d => if py_truthy (PDict d) then d else []
  | None => []
  end.

Definition generate_image_prompt_prompt (scene : string) (scenario : pydict) : string :=
  String.concat nl
    [ ("Scene: " ++ scene)%string;
      ("Setting: "
         ++ py_str (Dict.get_default "setting" (PStr "fantasy world") scenario))%string;
      ("Theme: "
         ++ py_str (Dict.get_default "theme" (PStr "adventure") scenario))%string;
      EmptyString;
      "Create an image generation prompt." ].

Definition generate_image_prompt
    (request : GenerateImagePromptRequest.t) : result response :=
  let scenario := scenario_or_empty (GenerateImagePromptRequest.scenario request) in
  let system_instruction := generate_image_prompt_system_instruction in
  let prompt :=
    generate_image_prompt_prompt (GenerateImagePromptRequest.scene request) scenario in
  try_except
    (response_text <- call_gemini prompt system_instruction false default_temperature ;;
     image_prompt <- py_strip response_text ;;
     Ok (Returned [("success", PBool true); ("image_prompt", image_prompt)]))
    (fun e =>
       if isinstance_Exception e
       then Ok (JSONResponse 500 [("success", PBool false); ("error", PStr (str_exn e))])
       else Raise e).

(** ** Test endpoints *)

Definition test_gemini : result response :=
  try_except
    (response_text <- call_gemini "안녕하세요! 간단히 인사해주세요." EmptyString
                        false default_temperature ;;
     Ok (Returned [ ("success", PBool true);
                    ("message", PStr "Gemini API 연결 성공");
                    ("api_key_configured", PBool true);
                    ("response", response_text) ]))
    (fun e =>
       if isinstance_Exception e
       then Ok (JSONResponse 500
                  [ ("success", PBool false);
                    ("message", PStr "Gemini API 연결 실패");
                    ("error", PStr (str_exn e));
                    ("api_key_configured", PBool false) ])
       else Raise e).

Definition test_scenario : result response :=
  try_except
    (let request := ScenarioRequest.mk "좀비 아포칼립스" in
     reply <- generate_scenario request ;;
     reply <- response_setitem reply "message" (PStr "시나리오 생성 테스트 성공") ;;
     reply <- response_setitem reply "theme" (PStr (ScenarioRequest.theme request)) ;;
     Ok reply)
    (fun e =>
       if isinstance_Exception e
       then Ok (JSONResponse 500
                  [ ("success", PBool false);
                    ("message", PStr "시나리오 생성 테스트 실패");
                    ("error", PStr (str_exn e)) ])
       else Raise e).

(** [test_action]'s data are [sample_scenario], [sample_character] and
    [sample_action_request]. *)
Definition test_action : result response :=
  try_except
    (let request := sample_action_request in
     reply <- game_action request ;;
     reply <- response_setitem reply "message" (PStr "게임 액션 테스트 성공") ;;
     reply <- response_setitem reply "test_data"
                (PDict [ ("scenario", PDict sample_scenario);
                         ("character", PDict sample_character);
                         ("action", PStr (GameActionRequest.action request)) ]) ;;
     Ok reply)
    (fun e =>
       if isinstance_Exception e
       then Ok (JSONResponse 500
                  [ ("success", PBool false);
                    ("message", PStr "게임 액션 테스트 실패");
                    ("error", PStr (str_exn e)) ])
       else Raise e).

(** The conditional chain of [test_roll], read left to right. *)
Definition interpretation (reply : response) : result string :=
  critical <- response_get reply "is_critical" ;;
  if py_truthy critical then Ok "크리티컬!"
  else
    fumble <- response_get reply "is_fumble" ;;
    if py_truthy fumble then Ok "펌블..."
    else
      success <- response_get reply "is_success" ;;
      if py_truthy success then Ok "성공!" else Ok "실패".

(** [test_roll], given the value [roll] that [roll_dice] draws. *)
Definition test_roll (roll : Z) : result response :=
  let stat_value := 14 in
  let difficulty := 12 in
  let request := mkRollRequest stat_value difficulty in
  reply <- roll_dice roll request ;;
  interpretation <- interpretation reply ;;
  reply <- response_setitem reply "message" (PStr "주사위 굴림 테스트") ;;
  reply <- response_setitem reply "test_params"
             (PDict [("stat_value", PInt stat_value); ("difficulty", PInt difficulty)]) ;;
  reply <- response_setitem reply "interpretation" (PStr interpretation) ;;
  Ok reply.

(** [r['status'] == 'ok']. *)
Definition status_is_ok (r : pyval) : result bool :=
  match r with
  | PDict entries =>
      match Dict.get "status" entries with
      | Some v => Ok (eq_str "ok" v)
      | None => Raise (PyException "KeyError" "'status'")
      end
  | PList _ => Raise (PyException "TypeError"
                        "list indices must be integers or slices, not str")
  | PStr _ => Raise (PyException "TypeError" "string indices must be integers, not 'str'")
  | _ => Raise (PyException "TypeError"
                  ("'" ++ type_name r ++ "' object is not subscriptable"))
  end.

(** [all(f(x) for x in l)]: stops at the first false. *)
Fixpoint py_all {A : Type} (f : A -> result bool) (l : list A) : result bool :=
  match l with
  | [] => Ok true
  | x :: rest =>
      b <- f x ;;
      if b then py_all f rest else Ok false
  end.

(** [test_all], given the value [roll] drawn by [random.randint(1, 20)] and
    the text [now] that [datetime.datetime.now().isoformat()] returns. *)
Definition test_all (roll : Z) (now : string) : result response :=
  let results :=
    [ ("server", PDict [("status", PStr "unknown")]);
      ("gemini", PDict [("status", PStr "unknown")]);
      ("roll", PDict [("status", PStr "unknown")]) ] in
  let results :=
    Dict.set "server"
      (PDict [("status", PStr "ok"); ("message", PStr "서버 정상 작동")]) results in
  results <-
    try_except
      (_ <- call_gemini "테스트" EmptyString false default_temperature ;;
       Ok (Dict.set "gemini"
             (PDict [ ("status", PStr "ok");
                      ("message", PStr "Gemini API 연결 성공");
                      ("api_key_configured", PBool true) ]) results))
      (fun e =>
         if isinstance_Exception e
         then Ok (Dict.set "gemini"
                    (PDict [ ("status", PStr "error");
                             ("message", PStr (str_exn e)) ]) results)
         else Raise e) ;;
  let results :=
    Dict.set "roll"
      (PDict [ ("status", PStr "ok");
               ("message", PStr ("주사위 굴림 성공: " ++ py_str (PInt roll))) ]) results in
  all_ok <- py_all status_is_ok (map snd results) ;;
  Ok (Returned
        [ ("success", PBool all_ok);
          ("message", PStr (if all_ok then "모든 테스트 통과" else "일부 테스트 실패"));
          ("results", PDict results);
          ("timestamp", PStr now) ]).

(** ** Start-up: the API key *)

Definition API_KEY_ENV_VAR : string := "GOOGLE_API_KEY".

(** [not api_key] on what [os.environ.get] returned. *)
Definition not_key (api_key : option string) : bool :=
  match api_key with
  | Some s => negb (py_truthy (PStr s))
  | None => true
  end.

(** The module-level code that settles [api_key], given the environment
    and the line [typed] that [input] would read: the key handed to the
    client and the environment left behind. *)
Definition resolve_api_key (environ : strdict) (typed : string)
    : result (option string * strdict) :=
  let api_key := Dict.get API_KEY_ENV_VAR environ in
  let api_key :=
    if not_key api_key then Dict.get "GEMINI_API_KEY" environ else api_key in
  if not_key api_key
  then
    let api_key := str_strip typed in
    if not_key (Some api_key)
    then Raise (PyException "RuntimeError"
                  "❌ GOOGLE_API_KEY가 설정되지 않아 서버를 시작할 수 없습니다.")
    else Ok (Some api_key, Dict.set API_KEY_ENV_VAR api_key environ)
  else Ok (api_key, environ).

End Routes.

(** A client that answers with the arguments it was called with, to read
    off what [call_gemini] sends. *)
Definition client_echoing : string -> string -> pydict -> result genai_response :=
  fun model contents config =>
    Ok (mkResponse
          (Some (PDict [ ("model", PStr model);
                         ("contents", PStr contents);
                         ("config", PDict config) ]))).

(** * Properties *)

(** ** Dictionaries *)

Module DictFacts.
Section Facts.
Context {V : Type}.
Implicit Types (k : string) (v : V) (d : list (string * V)).

Lemma get_set_same k v d : Dict.get k (Dict.set k v d) = Some v.
Proof.
  induction d as [|[k' v'] d IH]; simpl.
  - now rewrite String.eqb_refl.
  - destruct (String.eqb k k') eqn:E; simpl; rewrite E; auto.
Qed.

Lemma get_set_other k k' v d :
  k' <> k -> Dict.get k' (Dict.set k v d) = Dict.get k' d.
Proof.
  intros Hne.
  induction d as [|[k0 v0] d IH]; simpl.
  - destruct (String.eqb k' k) eqn:E; auto.
    apply String.eqb_eq in E. contradiction.
  - destruct (String.eqb k k0) eqn:E; simpl.
    + apply String.eqb_eq in E. subst k0.
      destruct (String.eqb k' k) eqn:E'; auto.
      apply String.eqb_eq in E'. contradiction.
    + now rewrite IH.
Qed.

Lemma set_absent k v d :
  Dict.mem k d = false -> Dict.set k v d = (d ++ [(k, v)])%list.
Proof.
  unfold Dict.mem.
  induction d as [|[k' v'] d IH]; simpl; auto.
  destruct (String.eqb k k') eqn:E; [discriminate|].
  intros H. now rewrite IH.
Qed.

Lemma mem_set k v d : Dict.mem k (Dict.set k v d) = true.
Proof. unfold Dict.mem. now rewrite get_set_same. Qed.
End Facts.
End DictFacts.

(** ** Dice resolver *)

Section DiceFacts.

Context {lib : Library}.

(** The reply of [roll_dice], field by field: the handler never reaches its
    [except] clause. *)
Lemma roll_dice_reply (roll : Z) (request : RollRequest) :
  roll_dice roll request =
  Ok (Returned
        [ ("success", PBool true);
          ("roll", PInt roll);
          ("bonus", PInt ((stat_value request - 10) / 2));
          ("total", PInt (roll + (stat_value request - 10) / 2));
          ("difficulty", PInt (difficulty request));
          ("is_success",
            PBool (ge_int (roll + (stat_value request - 10) / 2) (difficulty request)
                   || (roll =? 20)));
          ("is_critical", PBool (roll =? 20));
          ("is_fumble", PBool (roll =? 1)) ]).
Proof. reflexivity. Qed.

(** Floor division by two, characterised without division. *)
Lemma floor_half (n : Z) : 2 * (n / 2) <= n < 2 * (n / 2) + 2.
Proof.
  pose proof (Z.div_mod n 2 ltac:(lia)) as Hdm.
  pose proof (Z.mod_pos_bound n 2 ltac:(lia)) as Hb.
  lia.
Qed.

(** C3: for all integers [stat_value] and [difficulty] and every drawn value,
    the reply's bonus is the floor of [(stat_value - 10) / 2] (the greatest
    integer [b] with [2 * b <= stat_value - 10]), the reply's total is the
    drawn value plus that bonus, and the stat values 10, 7 and 21 give the
    bonuses 0, -2 and 5. *)
Theorem roll_dice_bonus_is_floor (roll stat difficulty : Z) :
  field "bonus" (roll_dice roll (mkRollRequest stat difficulty))
    = Some (PInt ((stat - 10) / 2))
  /\ 2 * ((stat - 10) / 2) <= stat - 10 < 2 * ((stat - 10) / 2) + 2
  /\ field "roll" (roll_dice roll (mkRollRequest stat difficulty))
       = Some (PInt roll)
  /\ field "total" (roll_dice roll (mkRollRequest stat difficulty))
       = Some (PInt (roll + (stat - 10) / 2))
  /\ field "bonus" (roll_dice roll (mkRollRequest 10 difficulty))
       = Some (PInt 0)
  /\ field "bonus" (roll_dice roll (mkRollRequest 7 difficulty))
       = Some (PInt (-2))
  /\ field "bonus" (roll_dice roll (mkRollRequest 21 difficulty))
       = Some (PInt 5).
Proof.
  repeat split; try reflexivity; apply floor_half.
Qed.

(** C4: when the drawn value is 20 the reply has [is_critical] and
    [is_success] both true, whatever the stat value and the difficulty (the
    difficulty 100 included, where stat value 10 gives the total 20, below
    it); for every drawn value [is_success] is
    [total >= difficulty or is_critical]. *)
Theorem roll_dice_natural_20_succeeds (roll stat difficulty : Z) :
  field "is_critical" (roll_dice 20 (mkRollRequest stat difficulty))
    = Some (PBool true)
  /\ field "is_success" (roll_dice 20 (mkRollRequest stat difficulty))
       = Some (PBool true)
  /\ field "is_success" (roll_dice 20 (mkRollRequest stat 100))
       = Some (PBool true)
  /\ field "total" (roll_dice 20 (mkRollRequest 10 100)) = Some (PInt 20)
  /\ field "is_success" (roll_dice 20 (mkRollRequest 10 100)) = Some (PBool true)
  /\ field "is_critical" (roll_dice roll (mkRollRequest stat difficulty))
       = Some (PBool (roll =? 20))
  /\ field "is_success" (roll_dice roll (mkRollRequest stat difficulty))
       = Some (PBool (ge_int (roll + (stat - 10) / 2) difficulty || (roll =? 20))).
Proof.
  repeat split.
  - change (Some (PBool (ge_int (20 + (stat - 10) / 2) difficulty || true))
            = Some (PBool true)).
    now rewrite orb_true_r.
  - change (Some (PBool (ge_int (20 + (stat - 10) / 2) 100 || true))
            = Some (PBool true)).
    now rewrite orb_true_r.
Qed.

(** C5: when the drawn value is 1 and the total [1 + bonus] is strictly
    below the difficulty, the reply has [is_fumble] true and [is_success]
    false. *)
Theorem roll_dice_natural_1_below_difficulty (stat difficulty : Z) :
  1 + (stat - 10) / 2 < difficulty ->
  field "total" (roll_dice 1 (mkRollRequest stat difficulty))
    = Some (PInt (1 + (stat - 10) / 2))
  /\ field "is_fumble" (roll_dice 1 (mkRollRequest stat difficulty))
       = Some (PBool true)
  /\ field "is_success" (roll_dice 1 (mkRollRequest stat difficulty))
       = Some (PBool false).
Proof.
  intros Hlt. repeat split.
  change (Some (PBool (ge_int (1 + (stat - 10) / 2) difficulty || (1 =? 20)))
          = Some (PBool false)).
  unfold ge_int.
  destruct (Z.leb_spec difficulty (1 + (stat - 10) / 2)); [lia | reflexivity].
Qed.

(** C10: for a value drawn by [random.randint(1, 20)] the handler returns
    the success dict, in which [total = roll + bonus], [1 <= roll <= 20],
    [is_critical] and [is_fumble] are not both true, and under [is_fumble]
    the flag [is_success] is true exactly when [total >= difficulty]. *)
Theorem roll_dice_reply_consistent (roll : Z) (request : RollRequest) :
  randint 1 20 roll ->
  exists bonus total : Z, exists success critical fumble : bool,
    roll_dice roll request =
      Ok (Returned
            [ ("success", PBool true);
              ("roll", PInt roll);
              ("bonus", PInt bonus);
              ("total", PInt total);
              ("difficulty", PInt (difficulty request));
              ("is_success", PBool success);
              ("is_critical", PBool critical);
              ("is_fumble", PBool fumble) ])
    /\ total = roll + bonus
    /\ 1 <= roll <= 20
    /\ critical && fumble = false
    /\ (critical = true <-> roll = 20)
    /\ (fumble = true <-> roll = 1)
    /\ (fumble = true -> (success = true <-> difficulty request <= total)).
Proof.
  intros Hr. unfold randint in Hr.
  exists ((stat_value request - 10) / 2), (roll + (stat_value request - 10) / 2).
  exists (ge_int (roll + (stat_value request - 10) / 2) (difficulty request)
          || (roll =? 20)), (roll =? 20), (roll =? 1).
  split; [apply roll_dice_reply|].
  split; [reflexivity|].
  split; [exact Hr|].
  split.
  { destruct (Z.eqb_spec roll 20), (Z.eqb_spec roll 1); simpl; auto; lia. }
  split; [apply Z.eqb_eq|].
  split; [apply Z.eqb_eq|].
  intros Hf. apply Z.eqb_eq in Hf. subst roll.
  change (1 =? 20) with false.
  rewrite orb_false_r. unfold ge_int. apply Z.leb_le.
Qed.

End DiceFacts.

(** ** Completion client, normalizer and routes *)

Section ServerFacts.

Context {lib : Library}.

(** *** Normalizer *)

(** The three shapes, as one equation. *)
Lemma parse_json_response_parsed (text parsed : pyval) :
  json_loads text = Ok parsed ->
  parse_json_response text =
    Ok (match parsed with
        | PDict _ => parsed
        | PList _ => PDict [("items", parsed)]
        | _ => PDict [("result", parsed)]
        end).
Proof.
  intros H. unfold parse_json_response. rewrite H.
  destruct parsed; reflexivity.
Qed.

(** An exception of the parser that is not a [JSONDecodeError] passes
    through the normalizer as it is. *)
Lemma parse_json_response_other_exception (text : pyval) (e : exn) :
  json_loads text = Raise e ->
  isinstance_JSONDecodeError e = false ->
  parse_json_response text = Raise e.
Proof.
  intros H Hk. unfold parse_json_response. rewrite H. simpl.
  now rewrite Hk.
Qed.

(** What the normalizer returns is a mapping. *)
Lemma parse_json_response_mapping (text normalized : pyval) :
  parse_json_response text = Ok normalized ->
  exists d : pydict, normalized = PDict d.
Proof.
  unfold parse_json_response.
  destruct (json_loads text) as [parsed|e]; simpl.
  - destruct parsed; simpl; intros [= <-]; eauto.
  - destruct (isinstance_JSONDecodeError e); discriminate.
Qed.

(** C6: when the text parses as JSON, the normalizer returns the parsed
    value itself if it is a mapping, [{"items": parsed}] if it is a
    sequence, and [{"result": parsed}] if it is neither. *)
Theorem parse_json_response_shapes (text : string) (parsed : pyval) :
  json_loads (PStr text) = Ok parsed ->
  (forall entries, parsed = PDict entries ->
     parse_json_response (PStr text) = Ok (PDict entries))
  /\ (forall items, parsed = PList items ->
        parse_json_response (PStr text) = Ok (PDict [("items", PList items)]))
  /\ (isinstance_dict parsed = false -> isinstance_list parsed = false ->
        parse_json_response (PStr text) = Ok (PDict [("result", parsed)])).
Proof.
  intros H. rewrite (parse_json_response_parsed _ _ H).
  repeat split.
  - now intros entries ->.
  - now intros items ->.
  - destruct parsed; simpl; intros; try discriminate; reflexivity.
Qed.

(** C7: when the parser rejects the text with a [JSONDecodeError], the
    normalizer raises: an [HTTPException] of status 500 whose detail holds
    the parser's diagnostic under [reason] and the unchanged input text
    under [raw_response]. *)
Theorem parse_json_response_failure (text diagnostic : string) :
  json_loads (PStr text) = Raise (JSONDecodeError diagnostic) ->
  parse_json_response (PStr text) =
    Raise (HTTPException 500
             (PDict [ ("error", PStr "AI 응답(JSON) 파싱에 실패했습니다.");
                      ("reason", PStr diagnostic);
                      ("raw_response", PStr text) ])).
Proof.
  intros H. unfold parse_json_response. now rewrite H.
Qed.

(** *** The dialogues post-step *)

Lemma ensure_dialogues_mapping (d : pydict) :
  ensure_dialogues (PDict d) =
    Ok (PDict (if Dict.mem "dialogues" d
               then d
               else (d ++ [("dialogues", PList [])])%list)).
Proof.
  unfold ensure_dialogues, py_contains, bind.
  destruct (Dict.mem "dialogues" d) eqn:E; simpl; [reflexivity|].
  now rewrite DictFacts.set_absent.
Qed.

Lemma get_app_absent (k k' : string) (v : pyval) (d : pydict) :
  k' <> k -> Dict.get k' (d ++ [(k, v)])%list = Dict.get k' d.
Proof.
  intros Hne. induction d as [|[k0 v0] d IH]; simpl.
  - destruct (String.eqb k' k) eqn:E; auto.
    apply String.eqb_eq in E. contradiction.
  - now rewrite IH.
Qed.

Lemma mem_app_last (k : string) (v : pyval) (d : pydict) :
  Dict.mem k (d ++ [(k, v)])%list = true.
Proof.
  unfold Dict.mem. induction d as [|[k0 v0] d IH]; simpl.
  - now rewrite String.eqb_refl.
  - destruct (String.eqb k k0); auto.
Qed.

(** The handlers with their prompt worked out. *)
Lemma roll_result_narration_unfold (request : RollResultRequest.t) :
  roll_result_narration request =
    try_except
      (game_event_body
         (roll_result_prompt (RollResultRequest.character request)
            (RollResultRequest.roll_result request)
            (RollResultRequest.action request))
         roll_result_system_instruction)
      roll_result_except.
Proof. reflexivity. Qed.

Lemma game_action_unfold (request : GameActionRequest.t) (ht prompt : string) :
  history_text (GameActionRequest.history request) = Ok ht ->
  game_action_prompt (GameActionRequest.scenario request)
    (GameActionRequest.character request) ht
    (GameActionRequest.action request) = Ok prompt ->
  game_action request =
    try_except (game_event_body prompt game_action_system_instruction)
      game_action_except.
Proof.
  intros Hh Hp. unfold game_action. rewrite Hh. simpl.
  now rewrite Hp.
Qed.

(** C9: on the success path of both game-event routes (the completion call
    returned [t] and the normalizer returned [normalized]), the reply's
    result is the normalized mapping with [dialogues] set to the empty list
    when the key was missing: the result always has the key, a mapping that
    had it is returned as it is, one that lacked it gains exactly that
    entry, and the value under every other key, present or absent, is the
    normalized mapping's. *)
Theorem game_event_dialogues_default
    (prompt system_instruction : string) (t normalized : pyval) :
  call_gemini prompt system_instruction true default_temperature = Ok t ->
  parse_json_response t = Ok normalized ->
  exists d d' : pydict,
    normalized = PDict d
    /\ game_event_body prompt system_instruction = game_event_reply (PDict d')
    /\ (forall request : GameActionRequest.t, forall ht : string,
          history_text (GameActionRequest.history request) = Ok ht ->
          game_action_prompt (GameActionRequest.scenario request)
            (GameActionRequest.character request) ht
            (GameActionRequest.action request) = Ok prompt ->
          system_instruction = game_action_system_instruction ->
          game_action request = game_event_reply (PDict d'))
    /\ (forall request : RollResultRequest.t,
          roll_result_prompt (RollResultRequest.character request)
            (RollResultRequest.roll_result request)
            (RollResultRequest.action request) = prompt ->
          system_instruction = roll_result_system_instruction ->
          roll_result_narration request = game_event_reply (PDict d'))
    /\ Dict.mem "dialogues" d' = true
    /\ (Dict.mem "dialogues" d = true -> d' = d)
    /\ (Dict.mem "dialogues" d = false ->
          d' = (d ++ [("dialogues", PList [])])%list)
    /\ (forall k, k <> "dialogues" -> Dict.get k d' = Dict.get k d).
Proof.
  intros Hcall Hparse.
  destruct (parse_json_response_mapping _ _ Hparse) as [d ->].
  exists d.
  exists (if Dict.mem "dialogues" d then d else (d ++ [("dialogues", PList [])])%list).
  assert (Hbody : game_event_body prompt system_instruction =
                  game_event_reply
                    (PDict (if Dict.mem "dialogues" d then d
                            else (d ++ [("dialogues", PList [])])%list))).
  { unfold game_event_body. rewrite Hcall. simpl. rewrite Hparse. simpl.
    now rewrite ensure_dialogues_mapping. }
  split; [reflexivity|].
  split; [exact Hbody|].
  split.
  { intros request ht Hh Hp ->.
    rewrite (game_action_unfold _ _ _ Hh Hp), Hbody. reflexivity. }
  split.
  { intros request <- ->.
    rewrite roll_result_narration_unfold, Hbody. reflexivity. }
  destruct (Dict.mem "dialogues" d) eqn:E.
  - repeat split; auto. discriminate.
  - split; [apply mem_app_last|].
    split; [discriminate|].
    split; [reflexivity|].
    intros k Hk. now apply get_app_absent.
Qed.

(** *** Completion client *)

Ltac case_generate_content :=
  match goal with
  | |- context [generate_content ?m ?p ?c] =>
      let E := fresh "Hclient" in
      destruct (generate_content m p c) as [[[?|]]|?] eqn:E
  end.

(** [call_gemini] lets no [Exception] out except as an [HTTPException]. *)
Lemma call_gemini_raises (prompt system_instruction : string)
    (use_json_mode : bool) (temperature : pyval) (e : exn) :
  call_gemini prompt system_instruction use_json_mode temperature = Raise e ->
  isinstance_HTTPException e = true \/ isinstance_Exception e = false.
Proof.
  unfold call_gemini. case_generate_content; simpl.
  - discriminate.
  - intros [= <-]. now left.
  - destruct (isinstance_Exception e0) eqn:E; intros [= <-]; auto.
Qed.

(** A failing client call comes out as status 500, its message under
    [reason]. *)
Lemma call_gemini_upstream_failure (prompt system_instruction : string)
    (use_json_mode : bool) (temperature : pyval) (cause : exn) :
  (forall config, generate_content "gemini-2.0-flash-exp" prompt config = Raise cause) ->
  isinstance_Exception cause = true ->
  call_gemini prompt system_instruction use_json_mode temperature =
    Raise (HTTPException 500
             (PDict [ ("error", PStr "Gemini 호출 중 오류가 발생했습니다.");
                      ("reason", PStr (str_exn cause)) ])).
Proof.
  intros Hfail Hexc. unfold call_gemini.
  rewrite Hfail. simpl. now rewrite Hexc.
Qed.

(** *** Failure policy of the two game-event routes *)

Lemma game_action_except_reraises (e : exn) :
  isinstance_HTTPException e = true \/ isinstance_Exception e = false ->
  game_action_except e = Raise e.
Proof.
  unfold game_action_except.
  intros [H|H]; rewrite H; [reflexivity|].
  destruct (isinstance_HTTPException e); reflexivity.
Qed.

Lemma game_event_body_call_raises (prompt system_instruction : string) (e : exn) :
  call_gemini prompt system_instruction true default_temperature = Raise e ->
  game_event_body prompt system_instruction = Raise e.
Proof. intros H. unfold game_event_body. now rewrite H. Qed.

Lemma game_event_body_parse_raises (prompt system_instruction : string)
    (t : pyval) (e : exn) :
  call_gemini prompt system_instruction true default_temperature = Ok t ->
  parse_json_response t = Raise e ->
  game_event_body prompt system_instruction = Raise e.
Proof.
  intros H1 H2. unfold game_event_body. rewrite H1. simpl. now rewrite H2.
Qed.

(** C1, as the code has it: an exception raised while the prompt is built
    leaves the handler; so does every exception of the completion call, a
    failing client call leaving as an [HTTPException] of status 500; an
    exception of the parser that is an [Exception] but neither an
    [HTTPException] nor a [JSONDecodeError] is swallowed, the reply being
    the success envelope around the neutral placeholder (no dialogues, no
    damage, danger level safe, null roll and image fields). *)
Theorem game_action_failure_policy (request : GameActionRequest.t) :
  (forall e, history_text (GameActionRequest.history request) = Raise e ->
     game_action request = Raise e)
  /\ (forall ht e,
        history_text (GameActionRequest.history request) = Ok ht ->
        game_action_prompt (GameActionRequest.scenario request)
          (GameActionRequest.character request) ht
          (GameActionRequest.action request) = Raise e ->
        game_action request = Raise e)
  /\ (forall ht prompt,
        history_text (GameActionRequest.history request) = Ok ht ->
        game_action_prompt (GameActionRequest.scenario request)
          (GameActionRequest.character request) ht
          (GameActionRequest.action request) = Ok prompt ->
        (forall e,
           call_gemini prompt game_action_system_instruction true default_temperature
             = Raise e ->
           game_action request = Raise e)
        /\ (forall cause,
              (forall config,
                 generate_content "gemini-2.0-flash-exp" prompt config = Raise cause) ->
              isinstance_Exception cause = true ->
              game_action request =
                Raise (HTTPException 500
                         (PDict [ ("error", PStr "Gemini 호출 중 오류가 발생했습니다.");
                                  ("reason", PStr (str_exn cause)) ])))
        /\ (forall t e,
              call_gemini prompt game_action_system_instruction true default_temperature
                = Ok t ->
              json_loads t = Raise e ->
              isinstance_Exception e = true ->
              isinstance_HTTPException e = false ->
              isinstance_JSONDecodeError e = false ->
              game_action request = game_event_reply (PDict game_action_placeholder)))
  /\ Dict.get "dialogues" game_action_placeholder = Some (PList [])
  /\ Dict.get "damage_taken" game_action_placeholder = Some (PInt 0)
  /\ Dict.get "danger_level" game_action_placeholder = Some (PStr "safe")
  /\ Dict.get "roll_type" game_action_placeholder = Some PNone
  /\ Dict.get "roll_difficulty" game_action_placeholder = Some PNone
  /\ Dict.get "image_prompt" game_action_placeholder = Some PNone.
Proof.
  split.
  { intros e H. unfold game_action. now rewrite H. }
  split.
  { intros ht e Hh Hp. unfold game_action. rewrite Hh. simpl. now rewrite Hp. }
  split; [|repeat split].
  intros ht prompt Hh Hp.
  rewrite (game_action_unfold _ _ _ Hh Hp).
  assert (Hcall : forall e,
             call_gemini prompt game_action_system_instruction true default_temperature
               = Raise e ->
             try_except (game_event_body prompt game_action_system_instruction)
               game_action_except = Raise e).
  { intros e H. rewrite (game_event_body_call_raises _ _ _ H). simpl.
    apply game_action_except_reraises. exact (call_gemini_raises _ _ _ _ _ H). }
  split; [exact Hcall|].
  split.
  - intros cause Hfail Hexc. apply Hcall.
    now apply call_gemini_upstream_failure.
  - intros t e Hc Hl He Hh' Hj.
    rewrite (game_event_body_parse_raises _ _ _ _ Hc
               (parse_json_response_other_exception _ _ Hl Hj)).
    simpl. unfold game_action_except. now rewrite Hh', He.
Qed.

(** C2: when the completion call raises, or returns and the normalizer
    raises, whatever the exception, [roll_result_narration] returns the
    success envelope around its placeholder: [success] true, no dialogues,
    no damage, danger level safe, image prompt null. *)
Theorem roll_result_failure_swallowed (request : RollResultRequest.t) :
  (exists e,
     call_gemini
       (roll_result_prompt (RollResultRequest.character request)
          (RollResultRequest.roll_result request)
          (RollResultRequest.action request))
       roll_result_system_instruction true default_temperature = Raise e)
  \/ (exists t e,
        call_gemini
          (roll_result_prompt (RollResultRequest.character request)
             (RollResultRequest.roll_result request)
             (RollResultRequest.action request))
          roll_result_system_instruction true default_temperature = Ok t
        /\ parse_json_response t = Raise e) ->
  roll_result_narration request = game_event_reply (PDict roll_result_placeholder)
  /\ field "success" (roll_result_narration request) = Some (PBool true)
  /\ Dict.get "dialogues" roll_result_placeholder = Some (PList [])
  /\ Dict.get "damage_taken" roll_result_placeholder = Some (PInt 0)
  /\ Dict.get "danger_level" roll_result_placeholder = Some (PStr "safe")
  /\ Dict.get "image_prompt" roll_result_placeholder = Some PNone.
Proof.
  intros Hfail.
  assert (H : roll_result_narration request
              = game_event_reply (PDict roll_result_placeholder)).
  { rewrite roll_result_narration_unfold.
    destruct Hfail as [[e Hc]|(t & e & Hc & Hp)].
    - now rewrite (game_event_body_call_raises _ _ _ Hc).
    - now rewrite (game_event_body_parse_raises _ _ _ _ Hc Hp). }
  rewrite H. repeat split.
Qed.

(** The roll-result route never raises and always reports success. *)
Lemma roll_result_narration_total (request : RollResultRequest.t) :
  exists event : pyval, roll_result_narration request = game_event_reply event.
Proof.
  rewrite roll_result_narration_unfold.
  destruct (game_event_body _ _) as [[body|status content]|e] eqn:E; simpl.
  - unfold game_event_body, bind in E.
    destruct (call_gemini _ _ _ _); [|discriminate].
    destruct (parse_json_response _); [|discriminate].
    destruct (ensure_dialogues _); [|discriminate].
    injection E as <-. eexists. reflexivity.
  - unfold game_event_body, bind in E.
    destruct (call_gemini _ _ _ _); [|discriminate].
    destruct (parse_json_response _); [|discriminate].
    destruct (ensure_dialogues _); discriminate.
  - eexists. reflexivity.
Qed.

(** *** History windowing *)

Lemma recent_history_short (history : list strdict) :
  (List.length history <= 10)%nat -> recent_history history = history.
Proof.
  intros H. unfold recent_history.
  destruct (Nat.ltb_spec 10 (List.length history)); [lia | reflexivity].
Qed.

Lemma recent_history_suffix (history : list strdict) :
  history = (firstn (List.length history - 10) history ++ recent_history history)%list.
Proof.
  unfold recent_history.
  destruct (Nat.ltb_spec 10 (List.length history)) as [H|H].
  - now rewrite firstn_skipn.
  - replace (List.length history - 10)%nat with 0%nat by lia. reflexivity.
Qed.

Lemma recent_history_length (history : list strdict) :
  List.length (recent_history history) = Nat.min 10 (List.length history).
Proof.
  unfold recent_history.
  destruct (Nat.ltb_spec 10 (List.length history)) as [H|H].
  - rewrite length_skipn. lia.
  - lia.
Qed.

Lemma recent_history_last_ten (older window : list strdict) :
  List.length window = 10%nat -> recent_history (older ++ window) = window.
Proof.
  intros H. unfold recent_history. rewrite length_app, H.
  destruct (Nat.ltb_spec 10 (List.length older + 10)) as [Hlt|Hle].
  - replace (List.length older + 10 - 10)%nat with (List.length older) by lia.
    rewrite skipn_app, skipn_all, Nat.sub_diag. reflexivity.
  - destruct older; [reflexivity | simpl in Hle; lia].
Qed.

Lemma mapM_history_line (entries : list strdict) (fields : list (string * string)) :
  map entry_fields entries = map Some fields ->
  mapM history_line entries = Ok (map tagged_line fields).
Proof.
  revert fields.
  induction entries as [|h entries IH]; intros [|[role txt] fields] H;
    try discriminate; [reflexivity|].
  simpl in H. injection H as Hh Hrest.
  simpl. rewrite (IH _ Hrest).
  unfold history_line, getitem, entry_fields in *.
  destruct (Dict.get "role" h); [|discriminate].
  destruct (Dict.get "text" h); [|discriminate].
  injection Hh as -> ->. reflexivity.
Qed.

Lemma append_assoc (a b c : string) : ((a ++ b) ++ c)%string = (a ++ b ++ c)%string.
Proof. induction a as [|x a IH]; simpl; [reflexivity | now rewrite IH]. Qed.

(** Joining a list is joining its joined front with its back. *)
Lemma concat_split (sep : string) (front back : list string) :
  front <> [] -> back <> [] ->
  String.concat sep (front ++ back) = String.concat sep (String.concat sep front :: back).
Proof.
  intros Hf Hb. destruct back as [|b back]; [contradiction|].
  induction front as [|x front IH]; [contradiction|].
  destruct front as [|y front].
  - reflexivity.
  - change (String.concat sep ((x :: y :: front) ++ b :: back))
      with (x ++ sep ++ String.concat sep ((y :: front) ++ b :: back))%string.
    rewrite IH by discriminate.
    change (String.concat sep (String.concat sep (x :: y :: front) :: b :: back))
      with ((x ++ sep ++ String.concat sep (y :: front)) ++ sep
              ++ String.concat sep (b :: back))%string.
    change (String.concat sep (String.concat sep (y :: front) :: b :: back))
      with (String.concat sep (y :: front) ++ sep ++ String.concat sep (b :: back))%string.
    now rewrite !append_assoc.
Qed.

Lemma Ok_inj {A : Type} (a b : A) : Ok a = Ok b -> a = b.
Proof. now intros [=]. Qed.

Lemma PDict_inj (d d' : pydict) : PDict d = PDict d' -> d = d'.
Proof. now intros [=]. Qed.

(** The prompt is a header that does not depend on the history, then the
    history section, the action and the closing line. *)
Lemma game_action_prompt_shape (scenario character : pydict)
    (ht action prompt : string) :
  game_action_prompt scenario character ht action = Ok prompt ->
  exists header : string,
    prompt = prompt_with_history header ht action
    /\ forall ht' action',
         game_action_prompt scenario character ht' action'
           = Ok (prompt_with_history header ht' action').
Proof.
  unfold game_action_prompt, bind.
  repeat match goal with
         | |- context [match ?m with Ok _ => _ | Raise _ => _ end] =>
             destruct m; [|discriminate]
         end.
  intros H. apply Ok_inj in H. subst prompt.
  match goal with
  | |- context [prompt_with_history _ ht action] =>
      match goal with
      | |- context [String.concat nl ?lines] =>
          exists (String.concat nl (firstn 18 lines))
      end
  end.
  split.
  - match goal with
    | |- String.concat nl ?lines = _ =>
        exact (concat_split nl (firstn 18 lines) (skipn 18 lines)
                 ltac:(discriminate) ltac:(discriminate))
    end.
  - intros ht' action'. f_equal.
    match goal with
    | |- String.concat nl ?lines = _ =>
        exact (concat_split nl (firstn 18 lines) (skipn 18 lines)
                 ltac:(discriminate) ltac:(discriminate))
    end.
Qed.

(** C8: when the entries of the retained window carry a role and a text,
    the history text is the window's lines joined by line feeds, one line
    [label: text] per entry and in the window's order, where the window is
    the suffix of the history of length [min 10 (length history)] (the whole
    history when it has at most 10 entries, its last 10 otherwise, so the
    text is that of the last 10 alone); the label is [GM], player or NPC for
    the roles gm, player and npc and the system label for any other role;
    and the prompt sent to the completion call holds that text between a
    header that does not depend on the history and the action. *)
Theorem history_window_serialized
    (history : list strdict) (fields : list (string * string)) :
  map entry_fields (recent_history history) = map Some fields ->
  history = (firstn (List.length history - 10) history ++ recent_history history)%list
  /\ List.length (recent_history history) = Nat.min 10 (List.length history)
  /\ ((List.length history <= 10)%nat -> recent_history history = history)
  /\ (forall older window,
        history = (older ++ window)%list -> List.length window = 10%nat ->
        recent_history history = window
        /\ history_text history = history_text window)
  /\ history_text history = Ok (String.concat nl (map tagged_line fields))
  /\ role_label "gm" = "[GM]"
  /\ role_label "player" = "[플레이어]"
  /\ role_label "npc" = "[NPC]"
  /\ (forall role, role <> "gm" -> role <> "player" -> role <> "npc" ->
        role_label role = "[시스템]")
  /\ (forall (request : GameActionRequest.t) (prompt : string),
        GameActionRequest.history request = history ->
        game_action_prompt (GameActionRequest.scenario request)
          (GameActionRequest.character request)
          (String.concat nl (map tagged_line fields))
          (GameActionRequest.action request) = Ok prompt ->
        game_action request =
          try_except (game_event_body prompt game_action_system_instruction)
            game_action_except
        /\ exists header : string,
             prompt = prompt_with_history header
                        (String.concat nl (map tagged_line fields))
                        (GameActionRequest.action request)
             /\ forall ht' action',
                  game_action_prompt (GameActionRequest.scenario request)
                    (GameActionRequest.character request) ht' action'
                    = Ok (prompt_with_history header ht' action')).
Proof.
  intros Hfields.
  assert (Htext : history_text history = Ok (String.concat nl (map tagged_line fields))).
  { unfold history_text. now rewrite (mapM_history_line _ _ Hfields). }
  split; [apply recent_history_suffix|].
  split; [apply recent_history_length|].
  split; [apply recent_history_short|].
  split.
  { intros older window -> Hlen.
    assert (Hw : recent_history (older ++ window) = window)
      by now apply recent_history_last_ten.
    split; [exact Hw|].
    unfold history_text. rewrite Hw.
    now rewrite (recent_history_short window) by lia. }
  split; [exact Htext|].
  split; [reflexivity|].
  split; [reflexivity|].
  split; [reflexivity|].
  split.
  { intros role H1 H2 H3. unfold role_label.
    apply String.eqb_neq in H1, H2, H3. now rewrite H1, H2, H3. }
  intros request prompt Hreq Hprompt.
  split.
  - apply (game_action_unfold request (String.concat nl (map tagged_line fields)));
      [now rewrite Hreq | exact Hprompt].
  - now apply game_action_prompt_shape.
Qed.

End ServerFacts.

(** * Runs on the sample requests *)

(** A fumble on the default request: stat value 10, difficulty 12, total 1. *)
Lemma roll_dice_natural_1_witness :
  field "is_fumble" (roll_dice (lib := lib_unreachable) 1 RollRequest_default)
    = Some (PBool true)
  /\ field "is_success" (roll_dice (lib := lib_unreachable) 1 RollRequest_default)
       = Some (PBool false).
Proof.
  destruct (roll_dice_natural_1_below_difficulty (lib := lib_unreachable) 10 12)
    as [_ H].
  - vm_compute. reflexivity.
  - exact H.
Defined.

(** A roll of 17 on [test_roll]'s request: bonus 2, total 19. *)
Lemma roll_dice_reply_witness :
  exists bonus total : Z, exists success critical fumble : bool,
    roll_dice (lib := lib_unreachable) 17 sample_roll_request =
      Ok (Returned
            [ ("success", PBool true);
              ("roll", PInt 17);
              ("bonus", PInt bonus);
              ("total", PInt total);
              ("difficulty", PInt 12);
              ("is_success", PBool success);
              ("is_critical", PBool critical);
              ("is_fumble", PBool fumble) ])
    /\ total = 17 + bonus
    /\ 1 <= 17 <= 20
    /\ critical && fumble = false
    /\ (critical = true <-> 17 = 20)
    /\ (fumble = true <-> 17 = 1)
    /\ (fumble = true -> (success = true <-> 12 <= total)).
Proof.
  apply (roll_dice_reply_consistent (lib := lib_unreachable) 17 sample_roll_request).
  unfold randint. lia.
Defined.

(** That reply is the one [sample_roll_result] records. *)
Example roll_dice_sample_reply :
  roll_dice (lib := lib_unreachable) 17 sample_roll_request
    = Ok (Returned sample_roll_result).
Proof. reflexivity. Qed.

(** The three inputs of the normalizer round trip: [[1,2,3]], ["hi"] and
    [{"a":1}]. *)
Lemma parse_json_response_shapes_witness :
  parse_json_response (lib := lib_unreachable) (PStr "[1,2,3]")
    = Ok (PDict [("items", PList [PInt 1; PInt 2; PInt 3])])
  /\ parse_json_response (lib := lib_unreachable) (PStr (dq ++ "hi" ++ dq))
       = Ok (PDict [("result", PStr "hi")])
  /\ parse_json_response (lib := lib_unreachable)
       (PStr ("{" ++ dq ++ "a" ++ dq ++ ":1}"))
       = Ok (PDict [("a", PInt 1)]).
Proof.
  split; [|split].
  - apply (parse_json_response_shapes (lib := lib_unreachable)
             "[1,2,3]" (PList [PInt 1; PInt 2; PInt 3]));
      reflexivity.
  - apply (parse_json_response_shapes (lib := lib_unreachable)
             (dq ++ "hi" ++ dq) (PStr "hi"));
      reflexivity.
  - apply (parse_json_response_shapes (lib := lib_unreachable)
             ("{" ++ dq ++ "a" ++ dq ++ ":1}") (PDict [("a", PInt 1)]));
      reflexivity.
Defined.

(** The malformed text [{not json]. *)
Lemma parse_json_response_failure_witness :
  parse_json_response (lib := lib_unreachable) (PStr "{not json") =
    Raise (HTTPException 500
             (PDict [ ("error", PStr "AI 응답(JSON) 파싱에 실패했습니다.");
                      ("reason",
                        PStr "Expecting property name enclosed in double quotes: line 1 column 2 (char 1)");
                      ("raw_response", PStr "{not json") ])).
Proof.
  apply (parse_json_response_failure (lib := lib_unreachable) "{not json").
  reflexivity.
Defined.

(** An answer without [dialogues] gains the key, on the roll-result route. *)
Lemma game_event_dialogues_default_witness :
  roll_result_narration (lib := lib_answering (PStr narration_only))
    sample_roll_result_request
  = game_event_reply
      (PDict [ ("narration", PStr "The door creaks open.");
               ("dialogues", PList []) ]).
Proof.
  destruct (game_event_dialogues_default (lib := lib_answering (PStr narration_only))
              (roll_result_prompt (lib := lib_answering (PStr narration_only))
                 sample_character sample_roll_result "앞으로 조심스럽게 걸어간다")
              roll_result_system_instruction
              (PStr narration_only)
              (PDict [("narration", PStr "The door creaks open.")])
              eq_refl eq_refl)
    as (d & d' & Hd & _ & _ & Hroll & _ & _ & Habsent & _).
  apply PDict_inj in Hd. subst d.
  rewrite (Hroll sample_roll_result_request eq_refl eq_refl).
  rewrite (Habsent eq_refl). reflexivity.
Defined.

(** The same answer on the game-action route. *)
Example game_action_dialogues_default :
  game_action (lib := lib_answering (PStr narration_only)) sample_action_request
  = game_event_reply
      (PDict [ ("narration", PStr "The door creaks open.");
               ("dialogues", PList []) ]).
Proof. vm_compute. reflexivity. Qed.

(** Fifteen turns: the text holds turns 6 to 15. *)
Lemma history_window_serialized_witness :
  recent_history sample_history = skipn 5 sample_history
  /\ history_text sample_history =
       Ok (String.concat nl
             [ "[GM]: turn 6";
               "[플레이어]: turn 7";
               "[NPC]: turn 8";
               "[시스템]: turn 9";
               "[시스템]: turn 10";
               "[GM]: turn 11";
               "[플레이어]: turn 12";
               "[NPC]: turn 13";
               "[시스템]: turn 14";
               "[시스템]: turn 15" ]).
Proof.
  destruct (history_window_serialized (lib := lib_unreachable) sample_history
              [ ("gm", "turn 6"); ("player", "turn 7"); ("npc", "turn 8");
                ("system", "turn 9"); ("narrator", "turn 10");
                ("gm", "turn 11"); ("player", "turn 12"); ("npc", "turn 13");
                ("system", "turn 14"); ("narrator", "turn 15") ]
              eq_refl)
    as (_ & _ & _ & Hwindow & Htext & _).
  split.
  - apply (Hwindow (firstn 5 sample_history) (skipn 5 sample_history));
      reflexivity.
  - exact Htext.
Defined.

(** The service is unreachable: the game-action route answers with the
    status 500 of [call_gemini], not with its placeholder. *)
Lemma game_action_upstream_failure_escapes :
  generate_content (Library := lib_unreachable) "gemini-2.0-flash-exp"
    "any prompt" [("temperature", default_temperature)]
    = Raise (PyException "ConnectionError" "connection refused")
  /\ game_action (lib := lib_unreachable) sample_action_request =
       Raise (HTTPException 500
                (PDict [ ("error", PStr "Gemini 호출 중 오류가 발생했습니다.");
                         ("reason", PStr "connection refused") ]))
  /\ field "success" (game_action (lib := lib_unreachable) sample_action_request)
       = None.
Proof. vm_compute. repeat split. Qed.

(** The answer is not JSON: the game-action route answers with the status
    500 of the normalizer. *)
Example game_action_parse_failure_escapes :
  game_action (lib := lib_answering (PStr "{not json")) sample_action_request =
    Raise (HTTPException 500
             (PDict [ ("error", PStr "AI 응답(JSON) 파싱에 실패했습니다.");
                      ("reason",
                        PStr "Expecting property name enclosed in double quotes: line 1 column 2 (char 1)");
                      ("raw_response", PStr "{not json") ])).
Proof. vm_compute. reflexivity. Qed.

(** A history entry without a role: the [KeyError] leaves the handler. *)
Example game_action_prompt_failure_escapes :
  game_action (lib := lib_answering (PStr narration_only))
    (GameActionRequest.mk sample_scenario sample_character [[("text", "hello")]]
       "look around")
  = Raise (PyException "KeyError" "'role'").
Proof. vm_compute. reflexivity. Qed.

(** The answer's text is [None]: the parser's [TypeError] is swallowed and
    the game-action route answers with its placeholder. *)
Lemma game_action_failure_policy_witness :
  game_action (lib := lib_answering PNone) sample_action_request
  = game_event_reply (PDict game_action_placeholder).
Proof.
  destruct (game_action_failure_policy (lib := lib_answering PNone)
              sample_action_request) as (_ & _ & Hbuilt & _).
  edestruct Hbuilt as (_ & _ & Hswallow); [reflexivity | reflexivity |].
  eapply Hswallow; reflexivity.
Defined.

(** The service is unreachable: the roll-result route answers with its
    placeholder. *)
Lemma roll_result_failure_swallowed_witness :
  roll_result_narration (lib := lib_unreachable) sample_roll_result_request
  = game_event_reply (PDict roll_result_placeholder).
Proof.
  apply (roll_result_failure_swallowed (lib := lib_unreachable)
           sample_roll_result_request).
  left. eexists. reflexivity.
Defined.

(** The answer is not JSON: the roll-result route answers with its
    placeholder all the same. *)
Example roll_result_parse_failure_swallowed :
  roll_result_narration (lib := lib_answering (PStr "{not json"))
    sample_roll_result_request
  = game_event_reply (PDict roll_result_placeholder).
Proof. vm_compute. reflexivity. Qed.

(** * Further properties *)

(** ** Completion client and normalizer *)

Section ContractFacts.

Context {lib : Library}.

Ltac case_client :=
  match goal with
  | |- context [generate_content ?m ?p ?c] =>
      let E := fresh "Hclient" in
      destruct (generate_content m p c) as [[[?|]]|?] eqn:E
  end.

(** X1: an [Exception] that leaves [call_gemini] is an [HTTPException] of
    status 500 whose detail is the fixed error message and a reason; any
    other exception it lets out is one outside [Exception] that the client
    itself raised. *)
Theorem call_gemini_failure_contract (prompt system_instruction : string)
    (use_json_mode : bool) (temperature : pyval) (e : exn) :
  call_gemini prompt system_instruction use_json_mode temperature = Raise e ->
  isinstance_Exception e = true ->
  exists reason : string,
    e = HTTPException 500
          (PDict [ ("error", PStr "Gemini 호출 중 오류가 발생했습니다.");
                   ("reason", PStr reason) ]).
Proof.
  unfold call_gemini. case_client; simpl.
  - discriminate.
  - intros [= <-] _. eexists. reflexivity.
  - destruct (isinstance_Exception e0) eqn:E; intros [= <-] He.
    + eexists. reflexivity.
    + congruence.
Qed.

(** X2: a response without a [text] attribute is reported like any other
    failure of the call: status 500, the reason being the [ValueError]'s
    message. *)
Theorem call_gemini_missing_text (prompt system_instruction : string)
    (use_json_mode : bool) (temperature : pyval) :
  (forall config,
     generate_content "gemini-2.0-flash-exp" prompt config = Ok (mkResponse None)) ->
  call_gemini prompt system_instruction use_json_mode temperature =
    Raise (HTTPException 500
             (PDict [ ("error", PStr "Gemini 호출 중 오류가 발생했습니다.");
                      ("reason", PStr "Gemini 응답에 text 속성이 없습니다.") ])).
Proof.
  intros H. unfold call_gemini. rewrite H. reflexivity.
Qed.

(** X3: whatever the parser does, the normalizer returns a mapping or
    raises; what it raises is the status 500 built from a
    [JSONDecodeError], or the parser's own exception, unchanged, when that
    is of another class. *)
Theorem parse_json_response_contract (text : pyval) :
  (forall v, parse_json_response text = Ok v ->
     isinstance_dict v = true /\ exists parsed, json_loads text = Ok parsed)
  /\ (forall e, parse_json_response text = Raise e ->
        (exists diagnostic,
           json_loads text = Raise (JSONDecodeError diagnostic)
           /\ e = HTTPException 500
                    (PDict [ ("error", PStr "AI 응답(JSON) 파싱에 실패했습니다.");
                             ("reason", PStr diagnostic);
                             ("raw_response", text) ]))
        \/ (json_loads text = Raise e /\ isinstance_JSONDecodeError e = false)).
Proof.
  unfold parse_json_response.
  destruct (json_loads text) as [parsed|e0]; simpl; split.
  - intros v [= <-]. split; [destruct parsed; reflexivity | eauto].
  - discriminate.
  - destruct (isinstance_JSONDecodeError e0); discriminate.
  - intros e. destruct e0; simpl; intros [= <-]; eauto.
Qed.

(** X4: the dialogues post-step never touches a [dialogues] entry that is
    there, whatever its value, and applying it twice is applying it once. *)
Theorem ensure_dialogues_keeps_and_settles (d : pydict) (x : pyval) :
  Dict.get "dialogues" d = Some x ->
  ensure_dialogues (PDict d) = Ok (PDict d)
  /\ forall v v' : pyval,
       ensure_dialogues v = Ok v' -> ensure_dialogues v' = Ok v'.
Proof.
  intros Hx. split.
  - rewrite ensure_dialogues_mapping. unfold Dict.mem. now rewrite Hx.
  - intros v v'. unfold ensure_dialogues, py_contains, py_setitem, bind.
    destruct v; try discriminate.
    + destruct (is_substring "dialogues" s) eqn:E; simpl; [|discriminate].
      intros [= <-]. now rewrite E.
    + destruct (existsb (eq_str "dialogues") items) eqn:E; simpl; [|discriminate].
      intros [= <-]. now rewrite E.
    + destruct (Dict.mem "dialogues" entries) eqn:E; simpl; intros [= <-].
      * now rewrite E.
      * now rewrite DictFacts.mem_set.
Qed.

(** X5: an answer that is valid JSON but not an object is still a success
    of the game-event routes: the event is the wrapper, [items] around a
    list and [result] around a scalar, with the empty [dialogues] added and
    none of the other fields of a game event. *)
Theorem game_event_non_object_answer
    (prompt system_instruction : string) (t parsed : pyval) :
  call_gemini prompt system_instruction true default_temperature = Ok t ->
  json_loads t = Ok parsed ->
  isinstance_dict parsed = false ->
  game_event_body prompt system_instruction =
    game_event_reply
      (PDict [ (if isinstance_list parsed then "items" else "result", parsed);
               ("dialogues", PList []) ])
  /\ forall request : RollResultRequest.t,
       roll_result_prompt (RollResultRequest.character request)
         (RollResultRequest.roll_result request)
         (RollResultRequest.action request) = prompt ->
       system_instruction = roll_result_system_instruction ->
       roll_result_narration request =
         game_event_reply
           (PDict [ (if isinstance_list parsed then "items" else "result", parsed);
                    ("dialogues", PList []) ]).
Proof.
  intros Hcall Hloads Hshape.
  assert (Hbody : game_event_body prompt system_instruction =
                  game_event_reply
                    (PDict [ (if isinstance_list parsed then "items" else "result",
                               parsed);
                             ("dialogues", PList []) ])).
  { unfold game_event_body. rewrite Hcall. simpl.
    rewrite (parse_json_response_parsed _ _ Hloads).
    destruct parsed; try discriminate; reflexivity. }
  split; [exact Hbody|].
  intros request <- ->. rewrite roll_result_narration_unfold, Hbody. reflexivity.
Qed.

End ContractFacts.

(** X23: what [call_gemini] sends: always the model
    [gemini-2.0-flash-exp], the prompt as it is and the temperature; the
    JSON media type exactly in JSON mode; the system instruction exactly
    when it is not empty. *)
Theorem call_gemini_sends (prompt system_instruction : string)
    (use_json_mode : bool) (temperature : pyval) :
  call_gemini (lib := Ref.library client_echoing)
    prompt system_instruction use_json_mode temperature =
    Ok (PDict
          [ ("model", PStr "gemini-2.0-flash-exp");
            ("contents", PStr prompt);
            ("config",
              PDict ([("temperature", temperature)]
                     ++ (if use_json_mode
                         then [("response_mime_type", PStr "application/json")]
                         else [])
                     ++ (if String.eqb system_instruction EmptyString
                         then []
                         else [("system_instruction", PStr system_instruction)]))%list) ]).
Proof.
  destruct use_json_mode, system_instruction; reflexivity.
Qed.

(** ** The game-action prompt *)

Section PromptFacts.

Context {lib : Library}.

Lemma mapM_stops_at_failure {A B : Type} (f : A -> result B)
    (good : list A) (ys : list B) (bad : A) (rest : list A) (e : exn) :
  mapM f good = Ok ys -> f bad = Raise e ->
  mapM f (good ++ bad :: rest) = Raise e.
Proof.
  revert ys. induction good as [|x good IH]; intros ys Hgood Hbad; simpl.
  - now rewrite Hbad.
  - simpl in Hgood. destruct (f x) as [y|e']; [|discriminate]. simpl in *.
    destruct (mapM f good) as [ys'|e'] eqn:E; [|discriminate].
    now rewrite (IH ys' eq_refl Hbad).
Qed.

Lemma history_line_key_error (h : strdict) :
  entry_fields h = None ->
  history_line h =
    Raise (PyException "KeyError" (if Dict.mem "role" h then "'text'" else "'role'")).
Proof.
  unfold entry_fields, history_line, getitem, Dict.mem.
  destruct (Dict.get "role" h); [|reflexivity].
  destruct (Dict.get "text" h); [discriminate | reflexivity].
Qed.

(** X6: when an entry of the retained window lacks a key, the entries
    before it being complete, the history text is not built and the route
    fails with the [KeyError] of the first key that entry lacks, [role]
    before [text]: nothing is sent to the completion call and no
    placeholder is returned. *)
Theorem game_action_malformed_entry
    (request : GameActionRequest.t) (good : list strdict)
    (fields : list (string * string)) (bad : strdict) (rest : list strdict) :
  recent_history (GameActionRequest.history request) = (good ++ bad :: rest)%list ->
  map entry_fields good = map Some fields ->
  entry_fields bad = None ->
  history_text (GameActionRequest.history request) =
    Raise (PyException "KeyError" (if Dict.mem "role" bad then "'text'" else "'role'"))
  /\ game_action request =
       Raise (PyException "KeyError" (if Dict.mem "role" bad then "'text'" else "'role'")).
Proof.
  intros Hwindow Hgood Hbad.
  assert (H : history_text (GameActionRequest.history request) =
              Raise (PyException "KeyError"
                       (if Dict.mem "role" bad then "'text'" else "'role'"))).
  { unfold history_text. rewrite Hwindow.
    rewrite (mapM_stops_at_failure _ _ _ _ _ _
               (mapM_history_line _ _ Hgood) (history_line_key_error _ Hbad)).
    reflexivity. }
  split; [exact H|].
  unfold game_action. now rewrite H.
Qed.

(** X7: entries older than the last ten are never read: whatever they
    hold, complete or not, the history text and the whole reply of the
    route are those of the last ten entries alone. *)
Theorem game_action_ignores_older_entries
    (scenario character : pydict) (older window : list strdict) (action : string) :
  List.length window = 10%nat ->
  history_text (older ++ window) = history_text window
  /\ game_action (GameActionRequest.mk scenario character (older ++ window) action)
     = game_action (GameActionRequest.mk scenario character window action).
Proof.
  intros Hlen.
  assert (H : history_text (older ++ window) = history_text window).
  { unfold history_text.
    rewrite (recent_history_last_ten _ _ Hlen).
    now rewrite (recent_history_short window) by lia. }
  split; [exact H|].
  unfold game_action. simpl. now rewrite H.
Qed.

(** X8: a character without a [stats] key is rendered as one whose stats
    are hp 100, maxHp 100 and 10 for strength, agility, intelligence and
    luck: the two prompts are the same. *)
Theorem game_action_prompt_default_stats
    (scenario character : pydict) (ht action : string) :
  Dict.get "stats" character = None ->
  game_action_prompt scenario character ht action =
  game_action_prompt scenario
    (Dict.set "stats"
       (PDict [ ("hp", PInt 100); ("maxHp", PInt 100); ("strength", PInt 10);
                ("agility", PInt 10); ("intelligence", PInt 10); ("luck", PInt 10) ])
       character)
    ht action.
Proof.
  intros H. unfold game_action_prompt, Dict.get_default.
  rewrite (DictFacts.get_set_other "stats" "name") by discriminate.
  rewrite (DictFacts.get_set_other "stats" "class") by discriminate.
  rewrite (DictFacts.get_set_other "stats" "inventory") by discriminate.
  rewrite (DictFacts.get_set_other "stats" "background") by discriminate.
  rewrite DictFacts.get_set_same, H.
  reflexivity.
Qed.

(** X9: a [stats] value that is not an object ([null], a number, a list)
    makes the prompt fail on its first stat with an [AttributeError], once
    the history and the two joins of the scenario went through; the error
    leaves the route. *)
Theorem game_action_stats_not_a_mapping
    (request : GameActionRequest.t) (ht locations threats : string) (stats : pyval) :
  history_text (GameActionRequest.history request) = Ok ht ->
  str_join ", " (Dict.get_default "locations" (PList [])
                   (GameActionRequest.scenario request)) = Ok locations ->
  str_join ", " (Dict.get_default "threats" (PList [])
                   (GameActionRequest.scenario request)) = Ok threats ->
  Dict.get "stats" (GameActionRequest.character request) = Some stats ->
  isinstance_dict stats = false ->
  game_action request =
    Raise (PyException "AttributeError"
             ("'" ++ type_name stats ++ "' object has no attribute 'get'")).
Proof.
  intros Hh Hl Ht Hs Hd.
  unfold game_action. rewrite Hh. simpl.
  unfold game_action_prompt. rewrite Hl. simpl. rewrite Ht. simpl.
  assert (Hstats : Dict.get_default "stats" (PDict [])
                     (GameActionRequest.character request) = stats)
    by (unfold Dict.get_default; now rewrite Hs).
  rewrite Hstats.
  destruct stats; try discriminate; reflexivity.
Qed.

End PromptFacts.

(** ** Dice *)

Section RollFacts.

Context {lib : Library}.

Lemma success_text_flags (v1 v2 v3 v4 v5 : pyval) (success critical fumble : bool) :
  success_text
    [ ("success", v1); ("roll", v2); ("bonus", v3); ("total", v4);
      ("difficulty", v5); ("is_success", PBool success);
      ("is_critical", PBool critical); ("is_fumble", PBool fumble) ]
  = if critical then "대성공!"
    else if success then "성공!"
    else if fumble then "대실패..."
    else "실패...".
Proof. destruct success, critical, fumble; reflexivity. Qed.

(** X10: with the same drawn value, raising the stat value or lowering the
    difficulty never turns a success into a failure. *)
Theorem roll_dice_success_monotone (roll stat stat' difficulty difficulty' : Z) :
  stat <= stat' ->
  difficulty' <= difficulty ->
  field "is_success" (roll_dice roll (mkRollRequest stat difficulty))
    = Some (PBool true) ->
  field "is_success" (roll_dice roll (mkRollRequest stat' difficulty'))
    = Some (PBool true).
Proof.
  intros Hs Hd H.
  change (Some (PBool (ge_int (roll + (stat - 10) / 2) difficulty || (roll =? 20)))
          = Some (PBool true)) in H.
  change (Some (PBool (ge_int (roll + (stat' - 10) / 2) difficulty' || (roll =? 20)))
          = Some (PBool true)).
  injection H as H. do 2 f_equal.
  apply orb_true_iff in H. apply orb_true_iff.
  destruct H as [H|H]; [left | now right].
  unfold ge_int in *. apply Z.leb_le in H. apply Z.leb_le.
  assert ((stat - 10) / 2 <= (stat' - 10) / 2) by (apply Z.div_le_mono; lia).
  lia.
Qed.

(** X11: fed the reply of [roll_dice], the roll-result route words the
    outcome by success before fumble: a critical for a drawn 20, else a
    success when the total reaches the difficulty, a drawn 1 included, else
    a fumble for a drawn 1, else a failure. *)
Theorem success_text_of_roll_dice (roll : Z) (request : RollRequest) :
  exists body : pydict,
    roll_dice roll request = Ok (Returned body)
    /\ success_text body =
         (if roll =? 20 then "대성공!"
          else if ge_int (roll + (stat_value request - 10) / 2) (difficulty request)
               then "성공!"
               else if roll =? 1 then "대실패..." else "실패...").
Proof.
  eexists. split; [apply roll_dice_reply|].
  rewrite success_text_flags.
  destruct (roll =? 20); [reflexivity|].
  now rewrite orb_false_r.
Qed.

End RollFacts.

(** ** The remaining routes *)

Section RoutesFacts.

Context {lib : Library} {strings : Strings}.

(** What leaves [call_gemini] goes through [except HTTPException: raise]
    or is outside [Exception]: either way it is raised again. *)
Lemma reraise_http_else_500_call (prompt system_instruction : string)
    (use_json_mode : bool) (temperature : pyval) (e : exn) :
  call_gemini prompt system_instruction use_json_mode temperature = Raise e ->
  reraise_http_else_500 e = Raise e.
Proof.
  intros H. unfold reraise_http_else_500.
  destruct (call_gemini_raises _ _ _ _ _ H) as [-> | He]; [reflexivity|].
  rewrite He. destruct (isinstance_HTTPException e); reflexivity.
Qed.

(** X12: the text route answers with the text of the completion call as it
    is, or raises what the call raised; its status-500 reply with
    [success] false is never produced. *)
Theorem generate_returns_text_or_raises (request : GenerateRequest.t) :
  (forall t,
     call_gemini (GenerateRequest.prompt request) EmptyString false
       default_temperature = Ok t ->
     generate request = Ok (Returned [("success", PBool true); ("result", t)]))
  /\ (forall e,
        call_gemini (GenerateRequest.prompt request) EmptyString false
          default_temperature = Raise e ->
        generate request = Raise e)
  /\ (forall status content, generate request <> Ok (JSONResponse status content)).
Proof.
  unfold generate.
  destruct (call_gemini _ _ _ _) as [t|e] eqn:E; simpl.
  - repeat split; try discriminate. now intros t' [= <-].
  - rewrite (reraise_http_else_500_call _ _ _ _ _ E).
    repeat split; try discriminate. now intros e' [= <-].
Qed.

(** X13: the scenario route has no fallback content and validates
    nothing: a failure of the call, and a text that is not JSON, are raised
    as status 500 (the latter with the raw text); another exception of the
    parser is answered with status 500 and [success] false; any JSON value
    is accepted as the scenario, a list or a scalar in its wrapper. *)
Theorem generate_scenario_policy (request : ScenarioRequest.t) (t : pyval) :
  call_gemini
    ("주제: " ++ ScenarioRequest.theme request ++ nl ++ nl
       ++ "위 주제로 TRPG 시나리오를 생성해주세요.")
    generate_scenario_system_instruction true default_temperature = Ok t ->
  (forall diagnostic,
     json_loads t = Raise (JSONDecodeError diagnostic) ->
     generate_scenario request =
       Raise (HTTPException 500
                (PDict [ ("error", PStr "AI 응답(JSON) 파싱에 실패했습니다.");
                         ("reason", PStr diagnostic);
                         ("raw_response", t) ])))
  /\ (forall e,
        json_loads t = Raise e ->
        isinstance_Exception e = true ->
        isinstance_HTTPException e = false ->
        isinstance_JSONDecodeError e = false ->
        generate_scenario request =
          Ok (JSONResponse 500 [("success", PBool false); ("error", PStr (str_exn e))]))
  /\ (forall parsed,
        json_loads t = Ok parsed ->
        generate_scenario request =
          Ok (Returned
                [ ("success", PBool true);
                  ("scenario",
                    match parsed with
                    | PDict _ => parsed
                    | PList _ => PDict [("items", parsed)]
                    | _ => PDict [("result", parsed)]
                    end) ])).
Proof.
  intros Hcall. unfold generate_scenario. rewrite Hcall. simpl.
  repeat split.
  - intros diagnostic H. unfold parse_json_response. now rewrite H.
  - intros e H He Hh Hj.
    rewrite (parse_json_response_other_exception _ _ H Hj). simpl.
    unfold reraise_http_else_500. now rewrite Hh, He.
  - intros parsed H. now rewrite (parse_json_response_parsed _ _ H).
Qed.

(** A failure of the call is raised by the scenario route as it is. *)
Lemma generate_scenario_call_raises (request : ScenarioRequest.t) (e : exn) :
  call_gemini
    ("주제: " ++ ScenarioRequest.theme request ++ nl ++ nl
       ++ "위 주제로 TRPG 시나리오를 생성해주세요.")
    generate_scenario_system_instruction true default_temperature = Raise e ->
  generate_scenario request = Raise e.
Proof.
  intros H. unfold generate_scenario. rewrite H. simpl.
  exact (reraise_http_else_500_call _ _ _ _ _ H).
Qed.

(** The prompt of the image-enhance route. *)
Lemma enhance_image_prompt_unfold (request : ImagePromptRequest.t) :
  enhance_image_prompt request =
    try_except
      (response_text <-
         call_gemini
           (String.concat nl
              [ ("Basic description: " ++ ImagePromptRequest.prompt request)%string;
                ("Theme/Genre: "
                   ++ format_optional (ImagePromptRequest.theme request))%string;
                EmptyString;
                "Create a detailed image generation prompt." ])
           enhance_image_prompt_system_instruction false default_temperature ;;
       enhanced <- py_strip response_text ;;
       Ok (Returned [("success", PBool true); ("enhanced_prompt", enhanced)]))
      (fun e =>
         if isinstance_Exception e
         then Ok (Returned
                    [ ("success", PBool false);
                      ("error", PStr (str_exn e));
                      ("enhanced_prompt", PStr (ImagePromptRequest.prompt request)) ])
         else Raise e).
Proof. reflexivity. Qed.

(** X14: the image-enhance route degrades instead of failing: it always
    returns a plain dict unless an exception outside [Exception] passes
    through, and that dict either reports success with the stripped text
    of the call or reports [success] false and echoes the caller's prompt
    unchanged, which is also what a text that is not a string gets. *)
Theorem enhance_image_prompt_degrades (request : ImagePromptRequest.t) :
  (exists enhanced : pyval,
     enhance_image_prompt request =
       Ok (Returned [("success", PBool true); ("enhanced_prompt", enhanced)]))
  \/ (exists error : pyval,
        enhance_image_prompt request =
          Ok (Returned
                [ ("success", PBool false);
                  ("error", error);
                  ("enhanced_prompt", PStr (ImagePromptRequest.prompt request)) ]))
  \/ (exists e, enhance_image_prompt request = Raise e
                /\ isinstance_Exception e = false).
Proof.
  rewrite enhance_image_prompt_unfold.
  destruct (call_gemini _ _ _ _) as [t|e]; simpl.
  - destruct t; simpl; eauto.
  - destruct (isinstance_Exception e) eqn:E; eauto.
Qed.

(** X15: the three outcomes of the image-enhance route by cause: a string
    answer is stripped; an answer that is not a string, and any
    [Exception] of the call, give [success] false with [str] of the
    exception and the original prompt. *)
Theorem enhance_image_prompt_outcomes (request : ImagePromptRequest.t) (t : pyval) :
  call_gemini
    (String.concat nl
       [ ("Basic description: " ++ ImagePromptRequest.prompt request)%string;
         ("Theme/Genre: " ++ format_optional (ImagePromptRequest.theme request))%string;
         EmptyString;
         "Create a detailed image generation prompt." ])
    enhance_image_prompt_system_instruction false default_temperature = Ok t ->
  (forall s, t = PStr s ->
     enhance_image_prompt request =
       Ok (Returned [ ("success", PBool true);
                      ("enhanced_prompt", PStr (str_strip s)) ]))
  /\ ((forall s, t <> PStr s) ->
      enhance_image_prompt request =
        Ok (Returned
              [ ("success", PBool false);
                ("error",
                  PStr ("'" ++ type_name t ++ "' object has no attribute 'strip'"));
                ("enhanced_prompt", PStr (ImagePromptRequest.prompt request)) ])).
Proof.
  intros Hcall. rewrite enhance_image_prompt_unfold, Hcall. simpl.
  split.
  - now intros s ->.
  - intros Hns. destruct t; try reflexivity.
    exfalso. exact (Hns s eq_refl).
Qed.

(** X16: the image-prompt route treats a missing and an empty scenario
    alike, rendering the setting as [fantasy world] and the theme as
    [adventure]; and, unlike the text and scenario routes, it answers a
    failed call with its own status-500 reply instead of raising. *)
Theorem generate_image_prompt_defaults_and_failure (scene : string) :
  generate_image_prompt (GenerateImagePromptRequest.mk scene None)
    = generate_image_prompt (GenerateImagePromptRequest.mk scene (Some []))
  /\ generate_image_prompt_prompt scene (scenario_or_empty None) =
       String.concat nl
         [ ("Scene: " ++ scene)%string;
           ("Setting: " ++ py_str (PStr "fantasy world"))%string;
           ("Theme: " ++ py_str (PStr "adventure"))%string;
           EmptyString;
           "Create an image generation prompt." ]
  /\ forall (scenario : option pydict) (e : exn),
       call_gemini
         (generate_image_prompt_prompt scene (scenario_or_empty scenario))
         generate_image_prompt_system_instruction false default_temperature
         = Raise e ->
       isinstance_Exception e = true ->
       generate_image_prompt (GenerateImagePromptRequest.mk scene scenario) =
         Ok (JSONResponse 500 [("success", PBool false); ("error", PStr (str_exn e))]).
Proof.
  repeat split.
  intros scenario e Hcall He.
  unfold generate_image_prompt. simpl. rewrite Hcall. simpl. now rewrite He.
Qed.

End RoutesFacts.

(** ** Test endpoints *)

Section TestFacts.

Context {lib : Library} {strings : Strings}.

Lemma interpretation_flags (v1 v2 v3 v4 v5 : pyval) (success critical fumble : bool) :
  interpretation
    (Returned
       [ ("success", v1); ("roll", v2); ("bonus", v3); ("total", v4);
         ("difficulty", v5); ("is_success", PBool success);
         ("is_critical", PBool critical); ("is_fumble", PBool fumble) ])
  = Ok (if critical then "크리티컬!"
        else if fumble then "펌블..."
        else if success then "성공!"
        else "실패").
Proof. destruct success, critical, fumble; reflexivity. Qed.

(** X17: for every drawn value [test_roll] returns the reply of
    [roll_dice] on stat value 14 and difficulty 12 with three keys added;
    its interpretation puts a fumble before a success: a critical for 20,
    a fumble for 1, a success from 10 to 19 and a failure below. *)
Theorem test_roll_interpretation (roll : Z) :
  test_roll roll =
    Ok (Returned
          [ ("success", PBool true);
            ("roll", PInt roll);
            ("bonus", PInt 2);
            ("total", PInt (roll + 2));
            ("difficulty", PInt 12);
            ("is_success", PBool ((10 <=? roll) || (roll =? 20)));
            ("is_critical", PBool (roll =? 20));
            ("is_fumble", PBool (roll =? 1));
            ("message", PStr "주사위 굴림 테스트");
            ("test_params", PDict [("stat_value", PInt 14); ("difficulty", PInt 12)]);
            ("interpretation",
              PStr (if roll =? 20 then "크리티컬!"
                    else if roll =? 1 then "펌블..."
                    else if 10 <=? roll then "성공!"
                    else "실패")) ]).
Proof.
  assert (Hge : ge_int (roll + 2) 12 = (10 <=? roll)).
  { unfold ge_int.
    destruct (Z.leb_spec 12 (roll + 2)), (Z.leb_spec 10 roll); auto; lia. }
  unfold test_roll. rewrite roll_dice_reply.
  change ((stat_value (mkRollRequest 14 12) - 10) / 2) with 2.
  change (difficulty (mkRollRequest 14 12)) with 12.
  rewrite Hge.
  unfold bind at 1. rewrite interpretation_flags.
  destruct (roll =? 20) eqn:E20; destruct (roll =? 1) eqn:E1;
    destruct (10 <=? roll) eqn:E10; try reflexivity.
  all: apply Z.eqb_eq in E1; subst roll; discriminate.
Qed.

(** X18: [test_action] reports what the game-action route did with the
    sample request: a returned dict gains the success message and the test
    data, so the swallowed failure that yields the placeholder counts as a
    passed test; an [Exception] raised by the route, the status 500 of a
    failed call included, gives the status-500 failure reply. *)
Theorem test_action_outcomes :
  (forall body,
     game_action sample_action_request = Ok (Returned body) ->
     test_action =
       Ok (Returned
             (Dict.set "test_data"
                (PDict [ ("scenario", PDict sample_scenario);
                         ("character", PDict sample_character);
                         ("action", PStr "앞으로 조심스럽게 걸어간다") ])
                (Dict.set "message" (PStr "게임 액션 테스트 성공") body))))
  /\ (forall e,
        game_action sample_action_request = Raise e ->
        isinstance_Exception e = true ->
        test_action =
          Ok (JSONResponse 500
                [ ("success", PBool false);
                  ("message", PStr "게임 액션 테스트 실패");
                  ("error", PStr (str_exn e)) ])).
Proof.
  unfold test_action. split.
  - intros body H. now rewrite H.
  - intros e H He. rewrite H. simpl. now rewrite He.
Qed.

(** X19: when the scenario route answers with its own status-500 reply,
    [test_scenario] fails on the item assignment and reports that
    [TypeError], not the error of the scenario route; a returned dict
    gains the message and the theme. *)
Theorem test_scenario_outcomes :
  (forall status content,
     generate_scenario (ScenarioRequest.mk "좀비 아포칼립스")
       = Ok (JSONResponse status content) ->
     test_scenario =
       Ok (JSONResponse 500
             [ ("success", PBool false);
               ("message", PStr "시나리오 생성 테스트 실패");
               ("error",
                 PStr "'JSONResponse' object does not support item assignment") ]))
  /\ (forall body,
        generate_scenario (ScenarioRequest.mk "좀비 아포칼립스")
          = Ok (Returned body) ->
        test_scenario =
          Ok (Returned
                (Dict.set "theme" (PStr "좀비 아포칼립스")
                   (Dict.set "message" (PStr "시나리오 생성 테스트 성공") body))))
  /\ (forall e,
        generate_scenario (ScenarioRequest.mk "좀비 아포칼립스") = Raise e ->
        isinstance_Exception e = true ->
        test_scenario =
          Ok (JSONResponse 500
                [ ("success", PBool false);
                  ("message", PStr "시나리오 생성 테스트 실패");
                  ("error", PStr (str_exn e)) ])).
Proof.
  unfold test_scenario. repeat split.
  - intros status content H. now rewrite H.
  - intros body H. now rewrite H.
  - intros e H He. rewrite H. simpl. now rewrite He.
Qed.

(** X20: [test_all] reports success exactly when the completion call
    returned: the server and roll checks always pass, an [Exception] of
    the call is recorded under [gemini] with status [error] and makes the
    overall [success] false, and the timestamp is the clock's text. *)
Theorem test_all_success_iff_call_returns (roll : Z) (now : string) :
  (forall t,
     call_gemini "테스트" EmptyString false default_temperature = Ok t ->
     field "success" (test_all roll now) = Some (PBool true)
     /\ field "message" (test_all roll now) = Some (PStr "모든 테스트 통과")
     /\ field "timestamp" (test_all roll now) = Some (PStr now))
  /\ (forall e,
        call_gemini "테스트" EmptyString false default_temperature = Raise e ->
        isinstance_Exception e = true ->
        field "success" (test_all roll now) = Some (PBool false)
        /\ field "message" (test_all roll now) = Some (PStr "일부 테스트 실패")
        /\ field "timestamp" (test_all roll now) = Some (PStr now)
        /\ field "results" (test_all roll now) =
             Some (PDict
                     [ ("server", PDict [ ("status", PStr "ok");
                                          ("message", PStr "서버 정상 작동") ]);
                       ("gemini", PDict [ ("status", PStr "error");
                                          ("message", PStr (str_exn e)) ]);
                       ("roll", PDict [ ("status", PStr "ok");
                                        ("message",
                                          PStr ("주사위 굴림 성공: "
                                                  ++ py_str (PInt roll))) ]) ]))
  /\ (forall e,
        call_gemini "테스트" EmptyString false default_temperature = Raise e ->
        isinstance_Exception e = false ->
        test_all roll now = Raise e).
Proof.
  unfold test_all. split; [|split].
  - intros t H. rewrite H. repeat split.
  - intros e H He. rewrite H. simpl. rewrite He. repeat split.
  - intros e H He. rewrite H. simpl. now rewrite He.
Qed.

End TestFacts.

(** ** Start-up *)

Section StartupFacts.

Context {strings : Strings}.

Lemma not_key_some (s : string) : not_key (Some s) = String.eqb s EmptyString.
Proof. unfold not_key, py_truthy. apply negb_involutive. Qed.

Lemma not_key_nonempty (s : string) : s <> EmptyString -> not_key (Some s) = false.
Proof. intros H. rewrite not_key_some. now apply String.eqb_neq. Qed.

(** X21: where the API key comes from: a non-empty [GOOGLE_API_KEY] wins;
    else a non-empty [GEMINI_API_KEY], and then the environment is left as
    it was, [GOOGLE_API_KEY] staying unset or empty; else the typed line,
    stripped, which is also stored under [GOOGLE_API_KEY]; and when that is
    empty too the start-up fails with a [RuntimeError]. *)
Theorem resolve_api_key_sources (environ : strdict) (typed : string) :
  (forall key,
     Dict.get "GOOGLE_API_KEY" environ = Some key -> key <> EmptyString ->
     resolve_api_key environ typed = Ok (Some key, environ))
  /\ (forall key,
        not_key (Dict.get "GOOGLE_API_KEY" environ) = true ->
        Dict.get "GEMINI_API_KEY" environ = Some key -> key <> EmptyString ->
        resolve_api_key environ typed = Ok (Some key, environ))
  /\ (not_key (Dict.get "GOOGLE_API_KEY" environ) = true ->
      not_key (Dict.get "GEMINI_API_KEY" environ) = true ->
      str_strip typed <> EmptyString ->
      resolve_api_key environ typed =
        Ok (Some (str_strip typed),
            Dict.set "GOOGLE_API_KEY" (str_strip typed) environ))
  /\ (not_key (Dict.get "GOOGLE_API_KEY" environ) = true ->
      not_key (Dict.get "GEMINI_API_KEY" environ) = true ->
      str_strip typed = EmptyString ->
      resolve_api_key environ typed =
        Raise (PyException "RuntimeError"
                 "❌ GOOGLE_API_KEY가 설정되지 않아 서버를 시작할 수 없습니다.")).
Proof.
  unfold resolve_api_key, API_KEY_ENV_VAR. repeat split.
  - intros key H Hne. rewrite H, (not_key_nonempty _ Hne).
    now rewrite (not_key_nonempty _ Hne).
  - intros key Hg H Hne. rewrite Hg, H. now rewrite (not_key_nonempty _ Hne).
  - intros Hg Hm Hne. rewrite Hg, Hm. now rewrite (not_key_nonempty _ Hne).
  - intros Hg Hm He. rewrite Hg, Hm, He. reflexivity.
Qed.

(** X22: a start-up that succeeds hands the client a key that is not
    empty, and leaves an environment on which the next start-up finds the
    same key without reading a line. *)
Theorem resolve_api_key_settles (environ environ' : strdict) (typed : string)
    (api_key : option string) :
  resolve_api_key environ typed = Ok (api_key, environ') ->
  (exists key, api_key = Some key /\ key <> EmptyString)
  /\ forall typed', resolve_api_key environ' typed' = Ok (api_key, environ').
Proof.
  unfold resolve_api_key, API_KEY_ENV_VAR.
  destruct (not_key (Dict.get "GOOGLE_API_KEY" environ)) eqn:Hg.
  - destruct (not_key (Dict.get "GEMINI_API_KEY" environ)) eqn:Hm.
    + destruct (not_key (Some (str_strip typed))) eqn:Ht; [discriminate|].
      intros [= <- <-].
      assert (Hne : str_strip typed <> EmptyString).
      { rewrite not_key_some in Ht. now apply String.eqb_neq. }
      split; [eauto|].
      intros typed'. rewrite DictFacts.get_set_same.
      rewrite Ht. cbv iota. now rewrite Ht.
    + intros [= <- <-].
      destruct (Dict.get "GEMINI_API_KEY" environ) as [key|] eqn:E; [|discriminate].
      split.
      * exists key. split; [reflexivity|].
        rewrite not_key_some in Hm. now apply String.eqb_neq.
      * intros typed'. rewrite Hg. now rewrite Hm.
  - cbv iota. rewrite Hg. intros [= <- <-].
    destruct (Dict.get "GOOGLE_API_KEY" environ) as [key|] eqn:E; [|discriminate].
    split.
    + exists key. split; [reflexivity|].
      rewrite not_key_some in Hg. now apply String.eqb_neq.
    + intros typed'. rewrite Hg. cbv iota. now rewrite Hg.
Qed.

End StartupFacts.

(** * Further runs *)

(** The unreachable service, as [call_gemini] reports it. *)
Lemma call_gemini_failure_contract_witness :
  exists reason : string,
    HTTPException 500
      (PDict [ ("error", PStr "Gemini 호출 중 오류가 발생했습니다.");
               ("reason", PStr "connection refused") ])
    = HTTPException 500
        (PDict [ ("error", PStr "Gemini 호출 중 오류가 발생했습니다.");
                 ("reason", PStr reason) ]).
Proof.
  apply (call_gemini_failure_contract (lib := lib_unreachable)
           "hello" EmptyString false default_temperature);
    reflexivity.
Defined.

(** A client whose answers have no [text] attribute. *)
Lemma call_gemini_missing_text_witness :
  call_gemini (lib := Ref.library Ref.client_without_text)
    "hello" EmptyString false default_temperature =
    Raise (HTTPException 500
             (PDict [ ("error", PStr "Gemini 호출 중 오류가 발생했습니다.");
                      ("reason", PStr "Gemini 응답에 text 속성이 없습니다.") ])).
Proof.
  apply (call_gemini_missing_text (lib := Ref.library Ref.client_without_text)).
  intros config. reflexivity.
Defined.

(** A [dialogues] entry that is [null] stays [null]. *)
Lemma ensure_dialogues_keeps_witness :
  ensure_dialogues (PDict [("narration", PStr "The door opens."); ("dialogues", PNone)])
  = Ok (PDict [("narration", PStr "The door opens."); ("dialogues", PNone)]).
Proof.
  apply (ensure_dialogues_keeps_and_settles
           [("narration", PStr "The door opens."); ("dialogues", PNone)] PNone).
  reflexivity.
Defined.

(** The answer [[1,2,3]] on the roll-result route. *)
Lemma game_event_non_object_answer_witness :
  roll_result_narration (lib := lib_answering (PStr "[1,2,3]"))
    sample_roll_result_request
  = game_event_reply
      (PDict [ ("items", PList [PInt 1; PInt 2; PInt 3]);
               ("dialogues", PList []) ]).
Proof.
  destruct (game_event_non_object_answer (lib := lib_answering (PStr "[1,2,3]"))
              (roll_result_prompt (lib := lib_answering (PStr "[1,2,3]"))
                 sample_character sample_roll_result "앞으로 조심스럽게 걸어간다")
              roll_result_system_instruction
              (PStr "[1,2,3]") (PList [PInt 1; PInt 2; PInt 3])
              eq_refl eq_refl eq_refl)
    as [_ Hroute].
  exact (Hroute sample_roll_result_request eq_refl eq_refl).
Defined.

(** A second entry with a role and no text. *)
Lemma game_action_malformed_entry_witness :
  game_action (lib := lib_answering (PStr narration_only))
    (GameActionRequest.mk sample_scenario sample_character
       [sample_entry "gm" "You enter the hall."; [("role", "player")]]
       "look around")
  = Raise (PyException "KeyError" "'text'").
Proof.
  apply (game_action_malformed_entry (lib := lib_answering (PStr narration_only))
           (GameActionRequest.mk sample_scenario sample_character
              [sample_entry "gm" "You enter the hall."; [("role", "player")]]
              "look around")
           [sample_entry "gm" "You enter the hall."]
           [("gm", "You enter the hall.")]
           [("role", "player")] []);
    reflexivity.
Defined.

(** Two entries without a role in front of the last ten turns. *)
Lemma game_action_ignores_older_entries_witness :
  history_text
    ([[("text", "no role")]; []] ++ skipn 5 sample_history)
  = history_text (skipn 5 sample_history).
Proof.
  apply (game_action_ignores_older_entries (lib := lib_unreachable)
           sample_scenario sample_character
           [[("text", "no role")]; []] (skipn 5 sample_history)
           "look around").
  reflexivity.
Defined.

(** A character that is only a name. *)
Lemma game_action_prompt_default_stats_witness :
  game_action_prompt (lib := lib_unreachable)
    sample_scenario [("name", PStr "Ann")] EmptyString "look around"
  = game_action_prompt (lib := lib_unreachable)
      sample_scenario
      [ ("name", PStr "Ann");
        ("stats",
          PDict [ ("hp", PInt 100); ("maxHp", PInt 100); ("strength", PInt 10);
                  ("agility", PInt 10); ("intelligence", PInt 10);
                  ("luck", PInt 10) ]) ]
      EmptyString "look around".
Proof.
  apply (game_action_prompt_default_stats (lib := lib_unreachable)
           sample_scenario [("name", PStr "Ann")] EmptyString "look around").
  reflexivity.
Defined.

(** A character whose stats are [null]. *)
Lemma game_action_stats_not_a_mapping_witness :
  game_action (lib := lib_answering (PStr narration_only))
    (GameActionRequest.mk sample_scenario
       [("name", PStr "Ann"); ("stats", PNone)] [] "look around")
  = Raise (PyException "AttributeError" "'NoneType' object has no attribute 'get'").
Proof.
  apply (game_action_stats_not_a_mapping (lib := lib_answering (PStr narration_only))
           (GameActionRequest.mk sample_scenario
              [("name", PStr "Ann"); ("stats", PNone)] [] "look around")
           EmptyString "입구, 복도, 보물방" "함정, 몬스터" PNone);
    reflexivity.
Defined.

(** A drawn 10: stat value 14 against 12 succeeds, so does 16 against 10. *)
Lemma roll_dice_success_monotone_witness :
  field "is_success" (roll_dice (lib := lib_unreachable) 10 (mkRollRequest 16 10))
    = Some (PBool true).
Proof.
  apply (roll_dice_success_monotone (lib := lib_unreachable) 10 14 16 12 10);
    [lia | lia | reflexivity].
Defined.

(** The answer [[1,2,3]] is accepted as a scenario. *)
Lemma generate_scenario_policy_witness :
  generate_scenario (lib := lib_answering (PStr "[1,2,3]"))
    (ScenarioRequest.mk "space opera")
  = Ok (Returned
          [ ("success", PBool true);
            ("scenario", PDict [("items", PList [PInt 1; PInt 2; PInt 3])]) ]).
Proof.
  destruct (generate_scenario_policy (lib := lib_answering (PStr "[1,2,3]"))
              (ScenarioRequest.mk "space opera") (PStr "[1,2,3]") eq_refl)
    as (_ & _ & Haccepted).
  exact (Haccepted (PList [PInt 1; PInt 2; PInt 3]) eq_refl).
Defined.

(** An answer with blanks and a line feed around it. *)
Lemma enhance_image_prompt_outcomes_witness :
  enhance_image_prompt
    (lib := lib_answering (PStr ("  a castle at dusk " ++ nl)))
    (strings := RefStrings.strings)
    (ImagePromptRequest.mk "castle" (Some "fantasy"))
  = Ok (Returned [ ("success", PBool true);
                   ("enhanced_prompt", PStr "a castle at dusk") ]).
Proof.
  destruct (enhance_image_prompt_outcomes
              (lib := lib_answering (PStr ("  a castle at dusk " ++ nl)))
              (strings := RefStrings.strings)
              (ImagePromptRequest.mk "castle" (Some "fantasy"))
              (PStr ("  a castle at dusk " ++ nl)) eq_refl)
    as [Hstring _].
  exact (Hstring ("  a castle at dusk " ++ nl) eq_refl).
Defined.

(** No key in the environment and the line [  k-123 ] typed: the next
    start-up, with nothing typed, finds the key. *)
Lemma resolve_api_key_settles_witness :
  resolve_api_key (strings := RefStrings.strings)
    [("GEMINI_API_KEY", EmptyString); ("GOOGLE_API_KEY", "k-123")] EmptyString
  = Ok (Some "k-123", [("GEMINI_API_KEY", EmptyString); ("GOOGLE_API_KEY", "k-123")]).
Proof.
  apply (resolve_api_key_settles (strings := RefStrings.strings)
           [("GEMINI_API_KEY", EmptyString)]
           [("GEMINI_API_KEY", EmptyString); ("GOOGLE_API_KEY", "k-123")]
           "  k-123 " (Some "k-123")).
  reflexivity.
Defined.
